(** * cluster-policy-controller: the bootstrap orchestration of
      pkg/cmd/cluster-policy-controller/policy_controller.go

    A shallow embedding of [RunClusterPolicyController],
    [WaitForHealthyAPIServer], [WaitForAuthorizationUpdate] and
    [startControllers].

    The Go code talks to collaborators (the REST client, the authorization
    client, the controller registry, klog).  Their answers are inputs of the
    model ([Collaborators]); what the program does to them is recorded, in
    program order, in the [trace] of a [World] that every operation threads
    through.  [klog.Fatal] ends the process, which the [outcome] of a [Proc]
    keeps apart from a normal return. *)

From Stdlib Require Import List String ZArith Lia Arith Bool.
Import ListNotations.
Local Open Scope string_scope.

(** ** Go values *)

(** A Go [error] is observed through its [Error()] text; [None] is [nil]. *)
Definition error := string.

(** [time.Duration] counts nanoseconds. *)
Module time.
Definition Duration := Z.
Definition Second : Duration := 1000000000%Z.
Definition Minute : Duration := (60 * Second)%Z.
End time.

Module http.
Definition StatusOK : Z := 200%Z.
End http.

(** [rest.Result]: what [Request.Do] hands back. *)
Record Result := mkResult {
  body : string;
  err : option error;
  statusCode : Z
}.

(** [Result{err: err}]: the value [Do] builds when the request itself fails;
    every other field keeps Go's zero value. *)
Definition Result_err (e : error) : Result :=
  {| body := ""; err := Some e; statusCode := 0%Z |}.

(** [func (r Result) Raw() ([]byte, error)] *)
Definition Raw (r : Result) : string * option error := (body r, err r).

(** The authorization/v1 types, as far as the program fills or reads them. *)
Record ResourceAttributes := mkResourceAttributes {
  Group : string;
  Verb : string;
  Resource : string;
  Namespace : string
}.

Record SubjectAccessReviewSpec := mkSubjectAccessReviewSpec {
  ResourceAttributes_ : option ResourceAttributes;
  User : string
}.

Record SubjectAccessReviewStatus := mkSubjectAccessReviewStatus {
  Allowed : bool
}.

Record SubjectAccessReview := mkSubjectAccessReview {
  Spec : SubjectAccessReviewSpec;
  Status : SubjectAccessReviewStatus
}.

(** ** The observable world *)

Inductive severity := INFO | V1_INFO | WARNING | ERROR | FATAL.

(** [leaderelection.LeaderElectionConfig] as the program fills it.  The two
    callbacks are fixed by the program text ([originControllerManager] and
    [OnStoppedLeading] below) and are not stored. *)
Record LeaderElectionConfig := mkLeaderElectionConfig {
  LockIdentity : string;
  LeaseDuration : time.Duration;
  RenewDeadline : time.Duration;
  RetryPeriod : time.Duration
}.

(** One entry per call the program makes on a collaborator. *)
Inductive event :=
| E_InitLogrusFromKlog
| E_RunControllerServer
| E_StartEventBroadcaster
| E_Get_healthz                                      (* client.Get().AbsPath("/healthz").Do(..) *)
| E_SubjectAccessReviews_Create (review : SubjectAccessReview)
| E_NewControllerContext
| E_initFn (controllerName : string)                 (* initFn(controllerContext) *)
| E_StartInformers
| E_klog (s : severity) (format : string) (args : list string)
| E_go_RunOrDie (lec : LeaderElectionConfig)          (* go leaderelection.RunOrDie(..) *)
| E_acquire (won : bool)                              (* an attempt to get the lease *)
| E_renew (held : bool)                               (* an attempt to keep the lease *)
| E_go_OnStartedLeading.                              (* the callback handed to a goroutine *)

Record World := mkWorld {
  healthz_calls : nat;        (* probes answered so far *)
  sar_calls : nat;            (* access reviews answered so far *)
  trace : list event
}.

Definition emit (e : event) (w : World) : World :=
  {| healthz_calls := healthz_calls w;
     sar_calls := sar_calls w;
     trace := trace w ++ [e] |}.

Definition World0 : World :=
  {| healthz_calls := 0; sar_calls := 0; trace := [] |}.

(** Modelled from the spec: [origincontrollers.ControllerContext] is declared
    in pkg/cmd/controller, which is not among the sources.  Section 6 of the
    spec gives the interface the driver uses: a per-context predicate
    [IsControllerEnabled(name) -> bool] (and [StartInformers], an [event]
    here). *)
Record ControllerContext := mkControllerContext {
  IsControllerEnabled : string -> bool
}.

(** The contract of a controller start function: it takes the shared
    context and returns [(started bool, err error)].  A pass calls each
    init function at most once; the function stands for the answer of that
    one call. *)
Definition InitFunc := ControllerContext -> bool * option error.

Record ServingInfo := mkServingInfo {
  BindAddress : string
}.

Record LeaderElection := mkLeaderElection {
  cfgLeaseDuration : time.Duration;
  cfgRenewDeadline : time.Duration;
  cfgRetryPeriod : time.Duration
}.

(** [openshiftcontrolplanev1.OpenShiftControllerManagerConfig], the fields
    read here; [ServingInfo] is a pointer and may be nil. *)
Record OpenShiftControllerManagerConfig := mkConfig {
  cfgServingInfo : option ServingInfo;
  cfgLeaderElection : LeaderElection
}.

(** Everything the program receives from outside.  [healthz n] and [sar n]
    are the answers to the n-th probe and the n-th access review of the
    process (counting from 0); [ControllerInitializers] lists the registry
    map in the order this run's [range] visits it.  [healthz_last_tick n]
    and [sar_last_tick n] are the scheduler's part in the wait that starts
    with probe (review) number [n]: whether the tick that falls on the
    timeout reaches the poll loop before the timer closes the channel.
    [RunControllerServer],
    [NewControllerContext] and [ControllerInitializers] belong to
    pkg/cmd/controller, which is not among the sources: what they return is
    taken as given. *)
Record Collaborators := mkCollaborators {
  NewForConfig : option error;
  RunControllerServer : option error;
  Hostname : string * option error;
  resourcelock_New : option error;
  version_String : string;
  healthz : nat -> Result;
  sar : nat -> SubjectAccessReview * option error;
  healthz_last_tick : nat -> bool;
  sar_last_tick : nat -> bool;
  NewControllerContext : ControllerContext * option error;
  ControllerInitializers : list (string * InitFunc)
}.

(** ** Processes: state passing, with process exit *)

Inductive outcome (A : Type) :=
| Returned (a : A)
| Exited.                     (* os.Exit from klog.Fatal *)
Arguments Returned {A} a.
Arguments Exited {A}.

Definition Proc (A : Type) := World -> outcome A * World.

Definition ret {A} (a : A) : Proc A := fun w => (Returned a, w).

Definition bind {A B} (m : Proc A) (k : A -> Proc B) : Proc B :=
  fun w =>
    match m w with
    | (Returned a, w') => k a w'
    | (Exited, w') => (Exited, w')
    end.

(** A call that cannot end the process. *)
Definition lift {A} (f : World -> A * World) : Proc A :=
  fun w => let (a, w') := f w in (Returned a, w').

Declare Scope proc_scope.
Delimit Scope proc_scope with proc.
Notation "x <- m ;; k" := (bind m (fun x => k))
  (at level 61, m at next level, right associativity) : proc_scope.
Notation "m ;; k" := (bind m (fun _ => k))
  (at level 61, right associativity) : proc_scope.

Definition klog_f (s : severity) (format : string) (args : list string) : Proc unit :=
  fun w => (Returned tt, emit (E_klog s format args) w).

(** [klog.Fatal] / [klog.Fatalf]: log, then leave the process. *)
Definition klog_Fatalf (format : string) (args : list string) : Proc unit :=
  fun w => (Exited, emit (E_klog FATAL format args) w).

(** [klog.Fatal(err)]: no format, the error is the only argument. *)
Definition klog_Fatal (e : error) : Proc unit := klog_Fatalf "" [e].

(** ** k8s.io/apimachinery/pkg/util/wait *)

Module wait.

Definition ErrWaitTimeout : error := "timed out waiting for the condition".

(** A [ConditionFunc] closes over program state [S]. *)
Definition ConditionFunc (S : Type) := S -> (bool * option error) * S.

(** The loop of [WaitFor]: it wakes up on every tick it receives and, last,
    on the close of the channel, and makes one attempt each time; an error
    or [done] ends the wait, and when the attempt made on the closed channel
    says "not yet" too, the wait ends in [ErrWaitTimeout].  [wakeups] counts
    the wake-ups still to come. *)
Fixpoint poll {S} (wakeups : nat) (condition : ConditionFunc S) (s : S)
  : option error * S :=
  match wakeups with
  | O => (Some ErrWaitTimeout, s)
  | Datatypes.S wakeups' =>
      let '((done, err), s1) := condition s in
      match err with
      | Some e => (Some e, s1)
      | None => if done then (None, s1) else poll wakeups' condition s1
      end
  end.

(** The wake-ups of a poller with this [interval] and [timeout].  The ticker
    fires at interval, 2*interval, ..; the condition is taken to answer
    within a tick, so none of the ticks before the timeout is dropped.  The
    tick that falls on the timeout races with the timer that closes the
    channel: [last_tick] says whether it gets through.  The close itself is
    the last wake-up. *)
Definition wakeups (last_tick : bool) (interval timeout : time.Duration) : nat :=
  (Z.to_nat (timeout / interval) - 1) + Nat.b2n last_tick + 1.

(** [PollImmediate(interval, timeout, condition)]: try at once; if that
    says "not yet", start the poller and try again on each of its wake-ups.
    [last_tick] is the scheduler's choice at the timeout and no argument of
    the Go function. *)
Definition PollImmediate {S} (last_tick : bool) (interval timeout : time.Duration)
           (condition : ConditionFunc S) (s : S) : option error * S :=
  let '((done, err), s1) := condition s in
  match err with
  | Some e => (Some e, s1)
  | None =>
      if done then (None, s1)
      else poll (wakeups last_tick interval timeout) condition s1
  end.

End wait.

Section Program.

Variable env : Collaborators.

(** ** WaitForHealthyAPIServer *)

(** [client.Get().AbsPath("/healthz").Do(context.TODO())] *)
Definition Get_AbsPath_healthz_Do (w : World) : Result * World :=
  (healthz env (healthz_calls w),
   {| healthz_calls := S (healthz_calls w);
      sar_calls := sar_calls w;
      trace := trace w ++ [E_Get_healthz] |}).

(** The closure handed to [PollImmediate]; [healthzContent] is the
    variable of the enclosing function that it assigns. *)
Definition healthz_condition : wait.ConditionFunc (string * World) :=
  fun '(healthzContent, w) =>
    let healthStatus := 0%Z in
    let '(resp, w) := Get_AbsPath_healthz_Do w in
    let healthStatus := statusCode resp in          (* .StatusCode(&healthStatus) *)
    if negb (healthStatus =? http.StatusOK)%Z then
      ((false, None),
       (healthzContent,
        emit (E_klog ERROR "Server isn't healthy yet. Waiting a little while." []) w))
    else
      let '(content, _) := Raw resp in
      let healthzContent := content in
      ((true, None), (healthzContent, w)).

Definition WaitForHealthyAPIServer (w : World) : option error * World :=
  let healthzContent := "" in
  let '(err, (healthzContent, w)) :=
    wait.PollImmediate (healthz_last_tick env (healthz_calls w))
                       time.Second (5 * time.Minute)%Z healthz_condition
                       (healthzContent, w) in
  match err with
  | Some e => (Some ("server unhealthy: " ++ healthzContent ++ ": " ++ e), w)
  | None => (None, w)
  end.

(** ** WaitForAuthorizationUpdate *)

Definition review : SubjectAccessReview :=
  {| Spec :=
       {| ResourceAttributes_ :=
            Some {| Group := "";
                    Verb := "get";
                    Resource := "configmaps";
                    Namespace := "openshift-kube-controller-manager" |};
          User := "system:kube-controller-manager" |};
     Status := {| Allowed := false |} |}.

(** [client.SubjectAccessReviews().Create(context.TODO(), review, ..)] *)
Definition SubjectAccessReviews_Create (r : SubjectAccessReview) (w : World)
  : (SubjectAccessReview * option error) * World :=
  (sar env (sar_calls w),
   {| healthz_calls := healthz_calls w;
      sar_calls := S (sar_calls w);
      trace := trace w ++ [E_SubjectAccessReviews_Create r] |}).

Definition sar_condition : wait.ConditionFunc World :=
  fun w =>
    let '((response, err), w) := SubjectAccessReviews_Create review w in
    match err with
    | Some e => ((false, Some e), w)
    | None =>
        if negb (Allowed (Status response)) then
          ((false, None),
           emit (E_klog INFO
                   "Waiting for system:kube-controller-manager to be able to access configmaps... "
                   []) w)
        else ((true, None), w)
    end.

Definition WaitForAuthorizationUpdate (w : World) : option error * World :=
  let '(err, w) :=
    wait.PollImmediate (sar_last_tick env (sar_calls w))
                       time.Second (2 * time.Minute)%Z sar_condition w in
  match err with
  | Some e =>
      (Some ("server missing RBAC policy for system:kube-controller-manager: " ++ e), w)
  | None => (None, w)
  end.

(** ** startControllers *)

Definition call_initFn (controllerName : string) (initFn : InitFunc)
           (controllerContext : ControllerContext) : Proc (bool * option error) :=
  fun w => (Returned (initFn controllerContext), emit (E_initFn controllerName) w).

(** The [for controllerName, initFn := range ..] loop over the entries still
    to visit.  [Returned (Some err)] is the loop's [return err], [Returned
    None] falling out of the loop. *)
Fixpoint range_ControllerInitializers (controllerContext : ControllerContext)
         (entries : list (string * InitFunc)) : Proc (option error) :=
  match entries with
  | [] => ret None
  | (controllerName, initFn) :: entries' =>
      if negb (IsControllerEnabled controllerContext controllerName) then
        (klog_f WARNING "%q is disabled" [controllerName] ;;
         range_ControllerInitializers controllerContext entries')%proc
      else
        (klog_f V1_INFO "Starting %q" [controllerName] ;;
         r <- call_initFn controllerName initFn controllerContext ;;
         let '(started, err) := r in
         match err with
         | Some e =>
             klog_Fatalf "Error starting %q (%v)" [controllerName; e] ;;
             ret (Some e)
         | None =>
             if negb started then
               klog_f WARNING "Skipping %q" [controllerName] ;;
               range_ControllerInitializers controllerContext entries'
             else
               klog_f INFO "Started %q" [controllerName] ;;
               range_ControllerInitializers controllerContext entries'
         end)%proc
  end.

Definition startControllers (controllerContext : ControllerContext)
  : Proc (option error) :=
  (r <- range_ControllerInitializers controllerContext (ControllerInitializers env) ;;
   match r with
   | Some e => ret (Some e)
   | None =>
       klog_f INFO "Started Origin Controllers" [] ;;
       ret None
   end)%proc.

(** ** The leadership callbacks *)

Definition call_NewControllerContext : Proc (ControllerContext * option error) :=
  fun w => (Returned (NewControllerContext env), emit E_NewControllerContext w).

Definition StartInformers : Proc unit :=
  fun w => (Returned tt, emit E_StartInformers w).

(** [if err != nil { klog.Fatal(err) }] *)
Definition Fatal_if (err : option error) : Proc unit :=
  match err with
  | Some e => klog_Fatal e
  | None => ret tt
  end.

(** [OnStartedLeading] *)
Definition originControllerManager : Proc unit :=
  (err <- lift WaitForHealthyAPIServer ;;
   Fatal_if err ;;
   err <- lift WaitForAuthorizationUpdate ;;
   Fatal_if err ;;
   r <- call_NewControllerContext ;;
   let '(controllerContext, err) := r in
   Fatal_if err ;;
   err <- startControllers controllerContext ;;
   Fatal_if err ;;
   StartInformers)%proc.

(** [OnStoppedLeading] *)
Definition OnStoppedLeading : Proc unit :=
  klog_Fatalf "leaderelection lost" [].

(** ** RunClusterPolicyController *)

(** The [go] statement hands [leaderelection.RunOrDie] to a new goroutine and
    goes on: the call is recorded, nothing of it runs here. *)
Definition RunClusterPolicyController (config : OpenShiftControllerManagerConfig)
           (w : World) : option error * World :=
  let w := emit E_InitLogrusFromKlog w in
  match NewForConfig env with
  | Some err => (Some err, w)
  | None =>
      (* only serve if we have serving information. *)
      let '(err, w) :=
        match cfgServingInfo config with
        | Some servingInfo =>
            let w := emit (E_klog INFO "Starting controllers on %s (%s)"
                                [BindAddress servingInfo; version_String env]) w in
            (RunControllerServer env, emit E_RunControllerServer w)
        | None => (None, w)
        end in
      match err with
      | Some err => (Some err, w)
      | None =>
          let w := emit E_StartEventBroadcaster w in
          let '(id, err) := Hostname env in
          match err with
          | Some err => (Some err, w)
          | None =>
              match resourcelock_New env with
              | Some err => (Some err, w)
              | None =>
                  let w :=
                    emit (E_go_RunOrDie
                            {| LockIdentity := id;
                               LeaseDuration := cfgLeaseDuration (cfgLeaderElection config);
                               RenewDeadline := cfgRenewDeadline (cfgLeaderElection config);
                               RetryPeriod := cfgRetryPeriod (cfgLeaderElection config) |}) w in
                  (None, w)
              end
          end
      end
  end.

End Program.

(** Some step of the leadership callback chain fails: a readiness wait, the
    context construction or the controller startup. *)
Definition callback_failed (env : Collaborators) (w : World) : Prop :=
  let '(errH, w1) := WaitForHealthyAPIServer env w in
  errH <> None
  \/ let '(errA, w2) := WaitForAuthorizationUpdate env w1 in
     errA <> None
     \/ let '(controllerContext, errC) := NewControllerContext env in
        errC <> None
        \/ fst (startControllers env controllerContext (emit E_NewControllerContext w2))
           <> Returned None.

(** ** The election loop *)

(** [leaderelection.LeaderCallbacks] as the program fills it. *)
Record LeaderCallbacks := mkLeaderCallbacks {
  cbOnStartedLeading : Proc unit;
  cbOnStoppedLeading : Proc unit
}.

Definition Callbacks (env : Collaborators) : LeaderCallbacks :=
  {| cbOnStartedLeading := originControllerManager env;
     cbOnStoppedLeading := OnStoppedLeading |}.

Inductive election_state := Standby | Leading.

Definition record (e : event) : Proc unit :=
  fun w => (Returned tt, emit e w).

(** Modelled from the spec: [leaderelection.RunOrDie] belongs to
    k8s.io/client-go and is not among the sources.  Section 4.2 of the spec
    gives its state machine.  In Standby the process attempts to acquire the
    lease; an attempt that succeeds moves it to Leading and invokes the
    leadership callback once, concurrently with the renewals (the callback
    is handed to a goroutine: recorded, not run here).  In Leading it
    attempts to renew; a renewal that fails is the loss of the lease, on
    which the loss callback runs.  [answers] are the answers of the
    coordination service to the successive attempts of the process ([true]:
    the lease is obtained, or kept); when they are used up the observation
    ends.  A coordinator that "continuously attempts to acquire/hold" the
    lease is in Standby again, should the loss callback return. *)
Fixpoint RunOrDie (callbacks : LeaderCallbacks) (state : election_state)
         (answers : list bool) : Proc unit :=
  match answers with
  | [] => ret tt
  | granted :: answers' =>
      match state with
      | Standby =>
          (record (E_acquire granted) ;;
           if granted then
             record E_go_OnStartedLeading ;;
             RunOrDie callbacks Leading answers'
           else RunOrDie callbacks Standby answers')%proc
      | Leading =>
          (record (E_renew granted) ;;
           if granted then RunOrDie callbacks Leading answers'
           else
             cbOnStoppedLeading callbacks ;;
             RunOrDie callbacks Standby answers')%proc
      end
  end.

(** ** Reading a trace *)

(** What one "not yet" round of each wait leaves in the trace. *)
Definition healthz_retry : list event :=
  [E_Get_healthz;
   E_klog ERROR "Server isn't healthy yet. Waiting a little while." []].

Definition sar_retry : list event :=
  [E_SubjectAccessReviews_Create review;
   E_klog INFO
     "Waiting for system:kube-controller-manager to be able to access configmaps... "
     []].

Fixpoint rounds (round : list event) (K : nat) : list event :=
  match K with
  | O => []
  | S K' => round ++ rounds round K'
  end.

(** The world after [K] probes that all answered "not healthy". *)
Definition after_unhealthy (K : nat) (w : World) : World :=
  {| healthz_calls := K + healthz_calls w;
     sar_calls := sar_calls w;
     trace := trace w ++ rounds healthz_retry K |}.

(** The world after [K] access reviews that all answered "denied". *)
Definition after_denied (K : nat) (w : World) : World :=
  {| healthz_calls := healthz_calls w;
     sar_calls := K + sar_calls w;
     trace := trace w ++ rounds sar_retry K |}.

(** The world after [K] "not healthy" probes and one that answered. *)
Definition answered_healthz (K : nat) (w : World) : World :=
  {| healthz_calls := S (K + healthz_calls w);
     sar_calls := sar_calls w;
     trace := trace w ++ rounds healthz_retry K ++ [E_Get_healthz] |}.

(** The world after [K] "denied" access reviews and one more, whose answer
    ended the wait. *)
Definition answered_sar (K : nat) (w : World) : World :=
  {| healthz_calls := healthz_calls w;
     sar_calls := S (K + sar_calls w);
     trace := trace w ++ rounds sar_retry K ++ [E_SubjectAccessReviews_Create review] |}.

(** The trace of [w'] is the one of [w] followed by events of one kind. *)
Definition leaves (kind : event -> bool) (w w' : World) : Prop :=
  exists t, trace w' = (trace w ++ t)%list /\ forallb kind t = true.

(** [w] followed by the events [t]. *)
Definition extend (w : World) (t : list event) : World :=
  {| healthz_calls := healthz_calls w;
     sar_calls := sar_calls w;
     trace := trace w ++ t |}.

(** The answers of the authorization service. *)
Definition sar_denied (r : SubjectAccessReview * option error) : Prop :=
  snd r = None /\ Allowed (Status (fst r)) = false.

Definition sar_allowed (r : SubjectAccessReview * option error) : Prop :=
  snd r = None /\ Allowed (Status (fst r)) = true.

Definition sar_failed (e : error) (r : SubjectAccessReview * option error) : Prop :=
  snd r = Some e.

(** The names whose init function was invoked, in order. *)
Definition initFn_calls (t : list event) : list string :=
  flat_map (fun e => match e with E_initFn n => [n] | _ => [] end) t.

Definition is_StartInformers (e : event) : bool :=
  match e with E_StartInformers => true | _ => false end.

(** The events each phase of the leadership callback may leave. *)
Definition health_event (e : event) : bool :=
  match e with E_Get_healthz | E_klog _ _ _ => true | _ => false end.

Definition auth_event (e : event) : bool :=
  match e with E_SubjectAccessReviews_Create _ | E_klog _ _ _ => true | _ => false end.

Definition startup_event (e : event) : bool :=
  match e with
  | E_NewControllerContext | E_initFn _ | E_klog _ _ _ => true
  | _ => false
  end.

(** The entries of the registry whose init function a pass reaches. *)
Definition enabled_names (controllerContext : ControllerContext)
           (entries : list (string * InitFunc)) : list string :=
  map fst (filter (fun entry => IsControllerEnabled controllerContext (fst entry)) entries).

(** An entry the pass gets past: disabled, or its init function reports no
    error. *)
Definition entry_ok (controllerContext : ControllerContext)
           (entry : string * InitFunc) : Prop :=
  IsControllerEnabled controllerContext (fst entry) = false
  \/ snd (snd entry controllerContext) = None.

(** An entry that starts nothing: disabled, or its init function returns
    [(false, nil)]. *)
Definition entry_idle (controllerContext : ControllerContext)
           (entry : string * InitFunc) : Prop :=
  IsControllerEnabled controllerContext (fst entry) = false
  \/ snd entry controllerContext = (false, None).

(** The names logged as started. *)
Definition started_names (t : list event) : list string :=
  flat_map (fun e =>
              match e with
              | E_klog INFO format [n] =>
                  if String.eqb format "Started %q" then [n] else []
              | _ => []
              end) t.

(** The events [RunClusterPolicyController] itself may leave before it
    spawns the election loop. *)
Definition setup_event (e : event) : bool :=
  match e with
  | E_InitLogrusFromKlog | E_RunControllerServer | E_StartEventBroadcaster
  | E_klog _ _ _ => true
  | _ => false
  end.

Definition is_FATAL (e : event) : bool :=
  match e with E_klog FATAL _ _ => true | _ => false end.

Definition health_budget : nat := Z.to_nat ((5 * time.Minute) / time.Second).
Definition auth_budget : nat := Z.to_nat ((2 * time.Minute) / time.Second).

(** The attempts a wait started in [w] makes when none succeeds: the
    immediate one, one per tick, one on the close of the channel; 301 or 302
    probes, 121 or 122 reviews, as the last tick is lost or not. *)
Definition health_attempts (env : Collaborators) (w : World) : nat :=
  S health_budget + Nat.b2n (healthz_last_tick env (healthz_calls w)).

Definition auth_attempts (env : Collaborators) (w : World) : nat :=
  S auth_budget + Nat.b2n (sar_last_tick env (sar_calls w)).

(** ** Sample collaborators *)

Definition answer (allowed : bool) : SubjectAccessReview * option error :=
  ({| Spec := Spec review; Status := {| Allowed := allowed |} |}, None).

Definition healthy : Result :=
  {| body := "ok"; err := None; statusCode := 200 |}.

Definition etcd_failed : Result :=
  {| body := "[-]etcd failed: reason withheld"; err := None; statusCode := 500 |}.

Definition sample_context : ControllerContext :=
  {| IsControllerEnabled :=
       fun name => negb (String.eqb name "openshift.io/resourcequota") |}.

Definition collaborators (hz : nat -> Result)
           (sr : nat -> SubjectAccessReview * option error)
           (registry : list (string * InitFunc)) : Collaborators :=
  {| NewForConfig := None;
     RunControllerServer := None;
     Hostname := ("master-0", None);
     resourcelock_New := None;
     version_String := "v0.0.0";
     healthz := hz;
     sar := sr;
     healthz_last_tick := fun _ => true;
     sar_last_tick := fun _ => true;
     NewControllerContext := (sample_context, None);
     ControllerInitializers := registry |}.

(** The same collaborators with the race at the timeout decided one way in
    every wait. *)
Definition with_last_tick (last_tick : bool) (env : Collaborators) : Collaborators :=
  {| NewForConfig := NewForConfig env;
     RunControllerServer := RunControllerServer env;
     Hostname := Hostname env;
     resourcelock_New := resourcelock_New env;
     version_String := version_String env;
     healthz := healthz env;
     sar := sar env;
     healthz_last_tick := fun _ => last_tick;
     sar_last_tick := fun _ => last_tick;
     NewControllerContext := NewControllerContext env;
     ControllerInitializers := ControllerInitializers env |}.

(** A server that never gets healthy. *)
Definition unhealthy_env : Collaborators :=
  collaborators (fun _ => etcd_failed) (fun _ => answer true) [].

(** An authorization service that denies twice and then cannot be reached,
    behind a server whose probes all fail in transport. *)
Definition refusing_env : Collaborators :=
  collaborators (fun _ => Result_err "connection refused")
                (fun n => if (n <? 2)%nat then answer false
                          else (review, Some "connection refused"))
                [].

(** A healthy server whose authorization service denies twice, then allows. *)
Definition settling_env : Collaborators :=
  collaborators (fun _ => healthy) (fun n => answer (2 <=? n)%nat) [].

Definition starts : InitFunc := fun _ => (true, None).
Definition declines : InitFunc := fun _ => (false, None).
Definition breaks : InitFunc := fun _ => (false, Some "failed to get api resources").

(** [sample_context] disables the second entry. *)
Definition three_controllers : list (string * InitFunc) :=
  [("openshift.io/namespace-security-allocation", starts);
   ("openshift.io/resourcequota", starts);
   ("openshift.io/cluster-quota-reconciliation", declines)].

Definition three_env : Collaborators :=
  collaborators (fun _ => healthy) (fun _ => answer true) three_controllers.

(** The third entry fails; a fourth follows it. *)
Definition failing_controllers : list (string * InitFunc) :=
  [("openshift.io/namespace-security-allocation", starts);
   ("openshift.io/resourcequota", starts);
   ("openshift.io/cluster-quota-reconciliation", breaks);
   ("openshift.io/cluster-csr-approver", starts)].

Definition failing_env : Collaborators :=
  collaborators (fun _ => healthy) (fun _ => answer true) failing_controllers.

Definition idle_controllers : list (string * InitFunc) :=
  [("openshift.io/resourcequota", starts);
   ("openshift.io/cluster-quota-reconciliation", declines)].

Definition idle_env : Collaborators :=
  collaborators (fun _ => healthy) (fun _ => answer true) idle_controllers.

Definition sample_config : OpenShiftControllerManagerConfig :=
  {| cfgServingInfo := Some {| BindAddress := "0.0.0.0:10357" |};
     cfgLeaderElection :=
       {| cfgLeaseDuration := (60 * time.Second)%Z;
          cfgRenewDeadline := (35 * time.Second)%Z;
          cfgRetryPeriod := (10 * time.Second)%Z |} |}.

(** ** More readings of a trace *)

(** The access reviews submitted, in order. *)
Definition reviews (t : list event) : list SubjectAccessReview :=
  flat_map (fun e => match e with
                     | E_SubjectAccessReviews_Create r => [r]
                     | _ => []
                     end) t.

Definition is_go_RunOrDie (e : event) : bool :=
  match e with E_go_RunOrDie _ => true | _ => false end.

Definition is_RunControllerServer (e : event) : bool :=
  match e with E_RunControllerServer => true | _ => false end.

(** The entries a pass logs as started: enabled, and the init function says
    so. *)
Definition launched_names (controllerContext : ControllerContext)
           (entries : list (string * InitFunc)) : list string :=
  map fst (filter (fun entry =>
                     IsControllerEnabled controllerContext (fst entry)
                     && fst (snd entry controllerContext)) entries).

(** The same collaborators with another answer of [RunControllerServer]. *)
Definition with_RunControllerServer (r : option error) (env : Collaborators)
  : Collaborators :=
  {| NewForConfig := NewForConfig env;
     RunControllerServer := r;
     Hostname := Hostname env;
     resourcelock_New := resourcelock_New env;
     version_String := version_String env;
     healthz := healthz env;
     sar := sar env;
     healthz_last_tick := healthz_last_tick env;
     sar_last_tick := sar_last_tick env;
     NewControllerContext := NewControllerContext env;
     ControllerInitializers := ControllerInitializers env |}.

(** An authorization service that never grants the permission. *)
Definition denying_env : Collaborators :=
  collaborators (fun _ => healthy) (fun _ => answer false) three_controllers.

(** A configuration without serving information. *)
Definition quiet_config : OpenShiftControllerManagerConfig :=
  {| cfgServingInfo := None;
     cfgLeaderElection := cfgLeaderElection sample_config |}.

(** * Polling *)

Local Open Scope list_scope.

Lemma PollImmediate_poll {S : Type} (last_tick : bool)
      (interval timeout : time.Duration)
      (condition : wait.ConditionFunc S) (s : S) :
  wait.PollImmediate last_tick interval timeout condition s
  = wait.poll (Datatypes.S (wait.wakeups last_tick interval timeout)) condition s.
Proof. reflexivity. Qed.

Lemma health_wakeups (last_tick : bool) :
  S (wait.wakeups last_tick time.Second (5 * time.Minute)%Z)
  = S health_budget + Nat.b2n last_tick.
Proof. now destruct last_tick. Qed.

Lemma auth_wakeups (last_tick : bool) :
  S (wait.wakeups last_tick time.Second (2 * time.Minute)%Z)
  = S auth_budget + Nat.b2n last_tick.
Proof. now destruct last_tick. Qed.

Lemma health_attempts_bounds (env : Collaborators) (w : World) :
  301 <= health_attempts env w <= 302.
Proof.
  unfold health_attempts. destruct (healthz_last_tick env (healthz_calls w)); cbn; lia.
Qed.

Lemma auth_attempts_bounds (env : Collaborators) (w : World) :
  121 <= auth_attempts env w <= 122.
Proof.
  unfold auth_attempts. destruct (sar_last_tick env (sar_calls w)); cbn; lia.
Qed.

(** Attempts that answer "not yet" are passed over one by one. *)
Lemma poll_not_yet {S : Type} (condition : wait.ConditionFunc S)
      (next : S -> S) (not_yet : S -> Prop) :
  (forall s, not_yet s -> condition s = ((false, None), next s)) ->
  forall K m s,
    (forall i, i < K -> not_yet (Nat.iter i next s)) ->
    wait.poll (K + m) condition s = wait.poll m condition (Nat.iter K next s).
Proof.
  intros Hstep K. induction K as [|K IH]; intros m s Hny.
  - reflexivity.
  - change (Datatypes.S K + m) with (Datatypes.S (K + m)).
    cbn [wait.poll].
    rewrite (Hstep s (Hny 0 (Nat.lt_0_succ K))).
    rewrite IH.
    + now rewrite Nat.iter_succ_r.
    + intros i Hi. rewrite <- Nat.iter_succ_r. apply Hny. lia.
Qed.

Lemma rounds_app (round : list event) (J K : nat) :
  rounds round (J + K) = rounds round J ++ rounds round K.
Proof.
  induction J as [|J IH]; cbn [rounds Nat.add]; [reflexivity|].
  now rewrite IH, app_assoc.
Qed.

Lemma after_denied_0 (w : World) : after_denied 0 w = w.
Proof. destruct w. unfold after_denied. cbn. now rewrite app_nil_r. Qed.

Lemma after_unhealthy_0 (w : World) : after_unhealthy 0 w = w.
Proof. destruct w. unfold after_unhealthy. cbn. now rewrite app_nil_r. Qed.

Lemma after_denied_succ (K : nat) (w : World) :
  after_denied 1 (after_denied K w) = after_denied (Datatypes.S K) w.
Proof.
  unfold after_denied. cbn [healthz_calls sar_calls trace Nat.add]. f_equal.
  rewrite <- app_assoc. f_equal.
  replace (Datatypes.S K) with (K + 1) by lia. now rewrite rounds_app.
Qed.

Lemma after_unhealthy_succ (K : nat) (w : World) :
  after_unhealthy 1 (after_unhealthy K w) = after_unhealthy (Datatypes.S K) w.
Proof.
  unfold after_unhealthy. cbn [healthz_calls sar_calls trace Nat.add]. f_equal.
  rewrite <- app_assoc. f_equal.
  replace (Datatypes.S K) with (K + 1) by lia. now rewrite rounds_app.
Qed.

Lemma iter_after_denied (K : nat) (w : World) :
  Nat.iter K (after_denied 1) w = after_denied K w.
Proof.
  induction K as [|K IH]; cbn [Nat.iter nat_rect].
  - now rewrite after_denied_0.
  - change (after_denied 1 (Nat.iter K (after_denied 1) w) = after_denied (S K) w).
    now rewrite IH, after_denied_succ.
Qed.

Lemma iter_after_unhealthy (K : nat) (c : string) (w : World) :
  Nat.iter K (fun s : string * World => (fst s, after_unhealthy 1 (snd s))) (c, w)
  = (c, after_unhealthy K w).
Proof.
  induction K as [|K IH].
  - cbn. now rewrite after_unhealthy_0.
  - rewrite Nat.iter_succ, IH. cbn [fst snd]. now rewrite after_unhealthy_succ.
Qed.

Section Waits.

Variable env : Collaborators.

(** *** One attempt of each condition *)

Lemma sar_condition_denied (w : World) :
  sar_denied (sar env (sar_calls w)) ->
  sar_condition env w = ((false, None), after_denied 1 w).
Proof.
  intros [He Ha]. unfold sar_condition, SubjectAccessReviews_Create.
  destruct (sar env (sar_calls w)) as [response e]. cbn in He, Ha. subst e.
  rewrite Ha. cbn. unfold emit, after_denied. cbn. now rewrite <- app_assoc.
Qed.

Lemma sar_condition_allowed (w : World) :
  sar_allowed (sar env (sar_calls w)) ->
  sar_condition env w
  = ((true, None),
     {| healthz_calls := healthz_calls w;
        sar_calls := S (sar_calls w);
        trace := trace w ++ [E_SubjectAccessReviews_Create review] |}).
Proof.
  intros [He Ha]. unfold sar_condition, SubjectAccessReviews_Create.
  destruct (sar env (sar_calls w)) as [response e]. cbn in He, Ha. subst e.
  now rewrite Ha.
Qed.

Lemma sar_condition_failed (e : error) (w : World) :
  sar_failed e (sar env (sar_calls w)) ->
  sar_condition env w
  = ((false, Some e),
     {| healthz_calls := healthz_calls w;
        sar_calls := S (sar_calls w);
        trace := trace w ++ [E_SubjectAccessReviews_Create review] |}).
Proof.
  unfold sar_failed, sar_condition, SubjectAccessReviews_Create.
  destruct (sar env (sar_calls w)) as [response e']. cbn. now intros ->.
Qed.

Lemma healthz_condition_not_ok (c : string) (w : World) :
  statusCode (healthz env (healthz_calls w)) <> http.StatusOK ->
  healthz_condition env (c, w) = ((false, None), (c, after_unhealthy 1 w)).
Proof.
  intros Hne. unfold healthz_condition, Get_AbsPath_healthz_Do.
  apply Z.eqb_neq in Hne. rewrite Hne. cbn.
  unfold emit, after_unhealthy. cbn. now rewrite <- app_assoc.
Qed.

Lemma healthz_condition_ok (c : string) (w : World) :
  statusCode (healthz env (healthz_calls w)) = http.StatusOK ->
  healthz_condition env (c, w)
  = ((true, None),
     (body (healthz env (healthz_calls w)),
      {| healthz_calls := S (healthz_calls w);
         sar_calls := sar_calls w;
         trace := trace w ++ [E_Get_healthz] |})).
Proof.
  intros Heq. unfold healthz_condition, Get_AbsPath_healthz_Do.
  apply Z.eqb_eq in Heq. now rewrite Heq.
Qed.

(** *** Passing over the "not yet" answers *)

Lemma poll_sar_denied (K m : nat) (w : World) :
  (forall i, i < K -> sar_denied (sar env (i + sar_calls w))) ->
  wait.poll (K + m) (sar_condition env) w
  = wait.poll m (sar_condition env) (after_denied K w).
Proof.
  intros Hd.
  rewrite (poll_not_yet (sar_condition env) (after_denied 1)
             (fun w => sar_denied (sar env (sar_calls w)))).
  - now rewrite iter_after_denied.
  - intros s. apply sar_condition_denied.
  - intros i Hi. rewrite iter_after_denied. cbn. now apply Hd.
Qed.

Lemma poll_healthz_not_ok (K m : nat) (c : string) (w : World) :
  (forall i, i < K ->
     statusCode (healthz env (i + healthz_calls w)) <> http.StatusOK) ->
  wait.poll (K + m) (healthz_condition env) (c, w)
  = wait.poll m (healthz_condition env) (c, after_unhealthy K w).
Proof.
  intros Hd.
  rewrite (poll_not_yet (healthz_condition env)
             (fun s => (fst s, after_unhealthy 1 (snd s)))
             (fun s => statusCode (healthz env (healthz_calls (snd s)))
                       <> http.StatusOK)).
  - now rewrite iter_after_unhealthy.
  - intros [c' w']. apply healthz_condition_not_ok.
  - intros i Hi. rewrite iter_after_unhealthy. cbn. now apply Hd.
Qed.

End Waits.

(** * What each wait returns *)

Lemma leaves_refl (kind : event -> bool) (w : World) : leaves kind w w.
Proof. exists []. now rewrite app_nil_r. Qed.

Lemma leaves_trans (kind : event -> bool) (w1 w2 w3 : World) :
  leaves kind w1 w2 -> leaves kind w2 w3 -> leaves kind w1 w3.
Proof.
  intros [t1 [E1 F1]] [t2 [E2 F2]]. exists (t1 ++ t2). split.
  - now rewrite E2, E1, app_assoc.
  - now rewrite forallb_app, F1, F2.
Qed.

Section WaitResults.

Variable env : Collaborators.

Lemma WaitForAuthorizationUpdate_allowed (K : nat) (w : World) :
  K < auth_attempts env w ->
  (forall i, i < K -> sar_denied (sar env (i + sar_calls w))) ->
  sar_allowed (sar env (K + sar_calls w)) ->
  WaitForAuthorizationUpdate env w = (None, answered_sar K w).
Proof.
  intros HK Hd Ha. unfold WaitForAuthorizationUpdate.
  rewrite PollImmediate_poll, auth_wakeups. fold (auth_attempts env w).
  replace (auth_attempts env w) with (K + S (auth_attempts env w - S K)) by lia.
  rewrite poll_sar_denied by assumption.
  cbn [wait.poll]. rewrite sar_condition_allowed by exact Ha.
  unfold answered_sar, after_denied. cbn. now rewrite <- app_assoc.
Qed.

Lemma WaitForAuthorizationUpdate_failed (K : nat) (e : error) (w : World) :
  K < auth_attempts env w ->
  (forall i, i < K -> sar_denied (sar env (i + sar_calls w))) ->
  sar_failed e (sar env (K + sar_calls w)) ->
  WaitForAuthorizationUpdate env w
  = (Some ("server missing RBAC policy for system:kube-controller-manager: " ++ e)%string,
     answered_sar K w).
Proof.
  intros HK Hd Ha. unfold WaitForAuthorizationUpdate.
  rewrite PollImmediate_poll, auth_wakeups. fold (auth_attempts env w).
  replace (auth_attempts env w) with (K + S (auth_attempts env w - S K)) by lia.
  rewrite poll_sar_denied by assumption.
  cbn [wait.poll]. rewrite (sar_condition_failed env e) by exact Ha.
  unfold answered_sar, after_denied. cbn [healthz_calls sar_calls trace].
  now rewrite <- app_assoc.
Qed.

Lemma WaitForHealthyAPIServer_ok (K : nat) (w : World) :
  K < health_attempts env w ->
  (forall i, i < K ->
     statusCode (healthz env (i + healthz_calls w)) <> http.StatusOK) ->
  statusCode (healthz env (K + healthz_calls w)) = http.StatusOK ->
  WaitForHealthyAPIServer env w = (None, answered_healthz K w).
Proof.
  intros HK Hd Ha. unfold WaitForHealthyAPIServer.
  rewrite PollImmediate_poll, health_wakeups. fold (health_attempts env w).
  replace (health_attempts env w) with (K + S (health_attempts env w - S K)) by lia.
  rewrite poll_healthz_not_ok by assumption.
  cbn [wait.poll]. rewrite healthz_condition_ok by exact Ha.
  unfold answered_healthz, after_unhealthy. cbn [healthz_calls sar_calls trace].
  now rewrite <- app_assoc.
Qed.

Lemma WaitForHealthyAPIServer_timeout (w : World) :
  (forall i, i < health_attempts env w ->
     statusCode (healthz env (i + healthz_calls w)) <> http.StatusOK) ->
  WaitForHealthyAPIServer env w
  = (Some "server unhealthy: : timed out waiting for the condition"%string,
     after_unhealthy (health_attempts env w) w).
Proof.
  intros Hd. unfold WaitForHealthyAPIServer.
  rewrite PollImmediate_poll, health_wakeups. fold (health_attempts env w).
  replace (health_attempts env w) with (health_attempts env w + 0) at 1 by lia.
  rewrite poll_healthz_not_ok by (intros i Hi; apply Hd; lia).
  reflexivity.
Qed.

(** The health condition never reports an error and assigns
    [healthzContent] only in the attempt that ends the wait with success. *)
Lemma poll_healthz_result (n : nat) (c : string) (w : World) :
  fst (wait.poll n (healthz_condition env) (c, w)) = None
  \/ (fst (wait.poll n (healthz_condition env) (c, w)) = Some wait.ErrWaitTimeout
      /\ fst (snd (wait.poll n (healthz_condition env) (c, w))) = c).
Proof.
  revert w. induction n as [|n IH]; intros w.
  - right. now split.
  - cbn [wait.poll].
    destruct (Z.eq_dec (statusCode (healthz env (healthz_calls w))) http.StatusOK) as [Hok|Hno].
    + rewrite healthz_condition_ok by exact Hok. now left.
    + rewrite healthz_condition_not_ok by exact Hno. apply IH.
Qed.

Lemma WaitForHealthyAPIServer_result (w : World) :
  fst (WaitForHealthyAPIServer env w) = None
  \/ fst (WaitForHealthyAPIServer env w)
     = Some "server unhealthy: : timed out waiting for the condition"%string.
Proof.
  unfold WaitForHealthyAPIServer. rewrite PollImmediate_poll.
  destruct (poll_healthz_result
              (S (wait.wakeups (healthz_last_tick env (healthz_calls w))
                               time.Second (5 * time.Minute)%Z)) "" w)
    as [Hn|[Ht Hc]];
    destruct (wait.poll _ _ _) as [r [c' w']]; cbn [fst snd] in *; subst.
  - now left.
  - right. reflexivity.
Qed.

(** Every attempt of the health wait issues its probe. *)
Lemma poll_healthz_calls (n : nat) (c : string) (w : World) :
  healthz_calls w + Nat.min n 1
  <= healthz_calls (snd (snd (wait.poll n (healthz_condition env) (c, w)))).
Proof.
  revert c w. induction n as [|n IH]; intros c w.
  - cbn. lia.
  - cbn [wait.poll].
    destruct (Z.eq_dec (statusCode (healthz env (healthz_calls w))) http.StatusOK) as [Hok|Hno].
    + rewrite healthz_condition_ok by exact Hok. cbn. lia.
    + rewrite healthz_condition_not_ok by exact Hno.
      specialize (IH c (after_unhealthy 1 w)). cbn in IH |- *. lia.
Qed.

(** *** The events of each wait *)

Lemma poll_healthz_leaves (n : nat) (c : string) (w : World) :
  leaves health_event w (snd (snd (wait.poll n (healthz_condition env) (c, w)))).
Proof.
  revert c w. induction n as [|n IH]; intros c w.
  - apply leaves_refl.
  - cbn [wait.poll].
    destruct (Z.eq_dec (statusCode (healthz env (healthz_calls w))) http.StatusOK) as [Hok|Hno].
    + rewrite healthz_condition_ok by exact Hok. now exists [E_Get_healthz].
    + rewrite healthz_condition_not_ok by exact Hno.
      apply leaves_trans with (w2 := after_unhealthy 1 w); [|apply IH].
      now exists (rounds healthz_retry 1).
Qed.

Lemma WaitForHealthyAPIServer_leaves (w : World) :
  leaves health_event w (snd (WaitForHealthyAPIServer env w)).
Proof.
  unfold WaitForHealthyAPIServer. rewrite PollImmediate_poll.
  pose proof (poll_healthz_leaves
                (S (wait.wakeups (healthz_last_tick env (healthz_calls w))
                                 time.Second (5 * time.Minute)%Z)) "" w) as H.
  destruct (wait.poll _ _ _) as [r [c' w']]. now destruct r.
Qed.

Lemma sar_condition_leaves (w : World) :
  leaves auth_event w (snd (sar_condition env w)).
Proof.
  unfold sar_condition, SubjectAccessReviews_Create.
  destruct (sar env (sar_calls w)) as [response [e|]].
  - now exists [E_SubjectAccessReviews_Create review].
  - destruct (Allowed (Status response)); cbn [negb snd].
    + now exists [E_SubjectAccessReviews_Create review].
    + exists sar_retry. split; [|reflexivity].
      unfold emit. cbn. now rewrite <- app_assoc.
Qed.

Lemma poll_sar_leaves (n : nat) (w : World) :
  leaves auth_event w (snd (wait.poll n (sar_condition env) w)).
Proof.
  revert w. induction n as [|n IH]; intros w.
  - apply leaves_refl.
  - cbn [wait.poll]. pose proof (sar_condition_leaves w) as H1.
    destruct (sar_condition env w) as [[done [e|]] w1]; cbn [snd] in *;
      [assumption|].
    destruct done; [assumption|].
    eapply leaves_trans; [exact H1|apply IH].
Qed.

Lemma WaitForAuthorizationUpdate_leaves (w : World) :
  leaves auth_event w (snd (WaitForAuthorizationUpdate env w)).
Proof.
  unfold WaitForAuthorizationUpdate. rewrite PollImmediate_poll.
  pose proof (poll_sar_leaves
                (S (wait.wakeups (sar_last_tick env (sar_calls w))
                                 time.Second (2 * time.Minute)%Z)) w) as H.
  destruct (wait.poll _ _ _) as [r w']. now destruct r.
Qed.

End WaitResults.

(** * The startup pass *)

Lemma extend_extend (w : World) (t1 t2 : list event) :
  extend (extend w t1) t2 = extend w (t1 ++ t2).
Proof. unfold extend. cbn. now rewrite app_assoc. Qed.

Lemma extend_nil (w : World) : extend w [] = w.
Proof. destruct w. unfold extend. cbn. now rewrite app_nil_r. Qed.

Lemma initFn_calls_app (t1 t2 : list event) :
  initFn_calls (t1 ++ t2) = initFn_calls t1 ++ initFn_calls t2.
Proof. apply flat_map_app. Qed.

Lemma started_names_app (t1 t2 : list event) :
  started_names (t1 ++ t2) = started_names t1 ++ started_names t2.
Proof. apply flat_map_app. Qed.

Section Startup.

Variable env : Collaborators.
Variable controllerContext : ControllerContext.

Local Abbreviation range := (range_ControllerInitializers controllerContext).

(** *** One entry *)

Lemma range_disabled (controllerName : string) (initFn : InitFunc)
      (entries : list (string * InitFunc)) (w : World) :
  IsControllerEnabled controllerContext controllerName = false ->
  range ((controllerName, initFn) :: entries) w
  = range entries (extend w [E_klog WARNING "%q is disabled" [controllerName]]).
Proof. intros Hd. cbn [range_ControllerInitializers]. now rewrite Hd. Qed.

Lemma range_skipped (controllerName : string) (initFn : InitFunc)
      (entries : list (string * InitFunc)) (w : World) :
  IsControllerEnabled controllerContext controllerName = true ->
  initFn controllerContext = (false, None) ->
  range ((controllerName, initFn) :: entries) w
  = range entries
      (extend w [E_klog V1_INFO "Starting %q" [controllerName];
                 E_initFn controllerName;
                 E_klog WARNING "Skipping %q" [controllerName]]).
Proof.
  intros He Hi. cbn [range_ControllerInitializers]. rewrite He.
  unfold bind, klog_f, call_initFn. cbn. rewrite Hi. cbn.
  f_equal. unfold emit, extend. cbn. f_equal. now rewrite <- !app_assoc.
Qed.

Lemma range_started (controllerName : string) (initFn : InitFunc)
      (entries : list (string * InitFunc)) (w : World) :
  IsControllerEnabled controllerContext controllerName = true ->
  initFn controllerContext = (true, None) ->
  range ((controllerName, initFn) :: entries) w
  = range entries
      (extend w [E_klog V1_INFO "Starting %q" [controllerName];
                 E_initFn controllerName;
                 E_klog INFO "Started %q" [controllerName]]).
Proof.
  intros He Hi. cbn [range_ControllerInitializers]. rewrite He.
  unfold bind, klog_f, call_initFn. cbn. rewrite Hi. cbn.
  f_equal. unfold emit, extend. cbn. f_equal. now rewrite <- !app_assoc.
Qed.

Lemma range_fatal (controllerName : string) (initFn : InitFunc)
      (entries : list (string * InitFunc)) (started : bool) (e : error) (w : World) :
  IsControllerEnabled controllerContext controllerName = true ->
  initFn controllerContext = (started, Some e) ->
  range ((controllerName, initFn) :: entries) w
  = (Exited,
     extend w [E_klog V1_INFO "Starting %q" [controllerName];
               E_initFn controllerName;
               E_klog FATAL "Error starting %q (%v)" [controllerName; e]]).
Proof.
  intros He Hi. cbn [range_ControllerInitializers]. rewrite He.
  unfold bind, klog_f, klog_Fatalf, call_initFn. cbn. rewrite Hi. cbn.
  f_equal. unfold emit, extend. cbn. f_equal. now rewrite <- !app_assoc.
Qed.

(** *** A run of entries *)

Lemma range_app (pre post : list (string * InitFunc)) (w : World) :
  range (pre ++ post) w
  = match range pre w with
    | (Returned None, w1) => range post w1
    | r => r
    end.
Proof.
  revert w. induction pre as [|[controllerName initFn] pre IH]; intros w.
  - reflexivity.
  - cbn [app range_ControllerInitializers].
    destruct (negb (IsControllerEnabled controllerContext controllerName)).
    + unfold bind, klog_f. apply IH.
    + unfold bind, klog_f, klog_Fatalf, call_initFn, ret.
      destruct (initFn controllerContext) as [started [e|]]; [reflexivity|].
      destruct (negb started); apply IH.
Qed.

(** Entries that are disabled or report no error are all passed; exactly the
    enabled ones are invoked, in order. *)
Lemma range_ok (entries : list (string * InitFunc)) (w : World) :
  Forall (entry_ok controllerContext) entries ->
  exists t,
    range entries w = (Returned None, extend w t)
    /\ initFn_calls t = enabled_names controllerContext entries
    /\ forallb startup_event t = true
    /\ existsb is_FATAL t = false.
Proof.
  intros Hok. revert w.
  induction Hok as [|[controllerName initFn] entries Hx Hok IH]; intros w.
  - exists []. now rewrite extend_nil.
  - unfold enabled_names. cbn [filter fst].
    destruct (IsControllerEnabled controllerContext controllerName) eqn:He.
    + destruct Hx as [Hx|Hx]; [cbn in Hx; congruence|]. cbn in Hx.
      destruct (initFn controllerContext) as [started err] eqn:Hi.
      cbn in Hx. subst err. destruct started.
      * rewrite range_started by assumption.
        destruct (IH (extend w [E_klog V1_INFO "Starting %q" [controllerName];
                                E_initFn controllerName;
                                E_klog INFO "Started %q" [controllerName]]))
          as [t [Hr [Hc [Hs Hf]]]].
        eexists. rewrite Hr, extend_extend. split; [reflexivity|].
        rewrite initFn_calls_app, forallb_app, existsb_app, Hc, Hs, Hf.
        now repeat split.
      * rewrite range_skipped by assumption.
        destruct (IH (extend w [E_klog V1_INFO "Starting %q" [controllerName];
                                E_initFn controllerName;
                                E_klog WARNING "Skipping %q" [controllerName]]))
          as [t [Hr [Hc [Hs Hf]]]].
        eexists. rewrite Hr, extend_extend. split; [reflexivity|].
        rewrite initFn_calls_app, forallb_app, existsb_app, Hc, Hs, Hf.
        now repeat split.
    + rewrite range_disabled by assumption.
      destruct (IH (extend w [E_klog WARNING "%q is disabled" [controllerName]]))
        as [t [Hr [Hc [Hs Hf]]]].
      eexists. rewrite Hr, extend_extend. split; [reflexivity|].
      rewrite initFn_calls_app, forallb_app, existsb_app, Hc, Hs, Hf.
      now repeat split.
Qed.

(** Entries that start nothing leave no "Started" line. *)
Lemma range_idle (entries : list (string * InitFunc)) (w : World) :
  Forall (entry_idle controllerContext) entries ->
  exists t,
    range entries w = (Returned None, extend w t)
    /\ started_names t = []
    /\ forallb startup_event t = true.
Proof.
  intros Hok. revert w.
  induction Hok as [|[controllerName initFn] entries Hx Hok IH]; intros w.
  - exists []. now rewrite extend_nil.
  - destruct (IsControllerEnabled controllerContext controllerName) eqn:He.
    + destruct Hx as [Hx|Hx]; [cbn in Hx; congruence|]. cbn in Hx.
      rewrite range_skipped by assumption.
      destruct (IH (extend w [E_klog V1_INFO "Starting %q" [controllerName];
                              E_initFn controllerName;
                              E_klog WARNING "Skipping %q" [controllerName]]))
        as [t [Hr [Hc Hs]]].
      eexists. rewrite Hr, extend_extend. split; [reflexivity|].
      rewrite started_names_app, forallb_app, Hc, Hs. now split.
    + rewrite range_disabled by assumption.
      destruct (IH (extend w [E_klog WARNING "%q is disabled" [controllerName]]))
        as [t [Hr [Hc Hs]]].
      eexists. rewrite Hr, extend_extend. split; [reflexivity|].
      rewrite started_names_app, forallb_app, Hc, Hs. now split.
Qed.

(** Whatever the registry, the pass leaves only startup events, returns no
    error of its own, and an exit is preceded by a fatal line. *)
Lemma range_any (entries : list (string * InitFunc)) (w : World) :
  exists t,
    snd (range entries w) = extend w t
    /\ forallb startup_event t = true
    /\ (fst (range entries w) = Returned None
        \/ (fst (range entries w) = Exited
            /\ exists t' format args, t = t' ++ [E_klog FATAL format args])).
Proof.
  revert w. induction entries as [|[controllerName initFn] entries IH]; intros w.
  - exists []. rewrite extend_nil. cbn. auto.
  - destruct (IsControllerEnabled controllerContext controllerName) eqn:He.
    + destruct (initFn controllerContext) as [started [e|]] eqn:Hi.
      * rewrite (range_fatal _ _ _ started e) by assumption.
        eexists. split; [reflexivity|]. split; [reflexivity|]. right.
        split; [reflexivity|].
        now exists [E_klog V1_INFO "Starting %q" [controllerName]; E_initFn controllerName],
                   "Error starting %q (%v)"%string, [controllerName; e].
      * destruct started;
          [rewrite range_started by assumption
          |rewrite range_skipped by assumption];
          match goal with
          | |- context [range entries (extend w ?t0)] =>
              destruct (IH (extend w t0)) as [t [Hr [Hs Ho]]];
              exists (t0 ++ t); rewrite Hr, extend_extend;
              split; [reflexivity|]; split; [now rewrite forallb_app, Hs|];
              destruct Ho as [Ho|[Ho [t' [format [args Ht]]]]];
              [now left|right; split; [assumption|];
               exists (t0 ++ t'), format, args; now rewrite Ht, app_assoc]
          end.
    + rewrite range_disabled by assumption.
      match goal with
      | |- context [range entries (extend w ?t0)] =>
          destruct (IH (extend w t0)) as [t [Hr [Hs Ho]]];
          exists (t0 ++ t); rewrite Hr, extend_extend;
          split; [reflexivity|]; split; [now rewrite forallb_app, Hs|];
          destruct Ho as [Ho|[Ho [t' [format [args Ht]]]]];
          [now left|right; split; [assumption|];
           exists (t0 ++ t'), format, args; now rewrite Ht, app_assoc]
      end.
Qed.

End Startup.

(** * The leadership callback *)

Section Callback.

Variable env : Collaborators.

Lemma startControllers_unfold (controllerContext : ControllerContext) (w : World) :
  startControllers env controllerContext w
  = match range_ControllerInitializers controllerContext (ControllerInitializers env) w with
    | (Returned None, w1) =>
        (Returned None, extend w1 [E_klog INFO "Started Origin Controllers" []])
    | (Returned (Some e), w1) => (Returned (Some e), w1)
    | (Exited, w1) => (Exited, w1)
    end.
Proof.
  unfold startControllers, bind.
  destruct (range_ControllerInitializers _ _ _) as [[[e|]|] w1]; reflexivity.
Qed.

Lemma originControllerManager_unfold (w : World) :
  originControllerManager env w
  = let '(errH, w1) := WaitForHealthyAPIServer env w in
    match errH with
    | Some e => (Exited, extend w1 [E_klog FATAL "" [e]])
    | None =>
        let '(errA, w2) := WaitForAuthorizationUpdate env w1 in
        match errA with
        | Some e => (Exited, extend w2 [E_klog FATAL "" [e]])
        | None =>
            let '(controllerContext, errC) := NewControllerContext env in
            match errC with
            | Some e =>
                (Exited, extend w2 [E_NewControllerContext; E_klog FATAL "" [e]])
            | None =>
                match startControllers env controllerContext
                                       (extend w2 [E_NewControllerContext]) with
                | (Returned None, w3) => (Returned tt, extend w3 [E_StartInformers])
                | (Returned (Some e), w3) => (Exited, extend w3 [E_klog FATAL "" [e]])
                | (Exited, w3) => (Exited, w3)
                end
            end
        end
    end.
Proof.
  unfold originControllerManager, bind, lift, call_NewControllerContext.
  destruct (WaitForHealthyAPIServer env w) as [[e|] w1]; [reflexivity|].
  cbn [Fatal_if ret].
  destruct (WaitForAuthorizationUpdate env w1) as [[e|] w2]; [reflexivity|].
  cbn [Fatal_if ret].
  destruct (NewControllerContext env) as [controllerContext [e|]].
  - cbn. unfold emit, extend. cbn. now rewrite <- app_assoc.
  - cbn [Fatal_if ret].
    change (emit E_NewControllerContext w2) with (extend w2 [E_NewControllerContext]).
    destruct (startControllers env controllerContext _) as [[[e|]|] w3]; reflexivity.
Qed.

(** The pass never hands an error back: it returns nil or the process is
    gone, with a fatal line last. *)
Lemma startControllers_any (controllerContext : ControllerContext) (w : World) :
  exists t,
    snd (startControllers env controllerContext w) = extend w t
    /\ forallb startup_event t = true
    /\ (fst (startControllers env controllerContext w) = Returned None
        \/ (fst (startControllers env controllerContext w) = Exited
            /\ exists t' format args, t = t' ++ [E_klog FATAL format args])).
Proof.
  rewrite startControllers_unfold.
  destruct (range_any controllerContext (ControllerInitializers env) w)
    as [t [Hw [Hs Ho]]].
  destruct (range_ControllerInitializers _ _ _) as [o w1]. cbn [fst snd] in *.
  subst w1. destruct Ho as [->|[-> Hf]].
  - exists (t ++ [E_klog INFO "Started Origin Controllers" []]).
    rewrite extend_extend. cbn [fst snd]. split; [reflexivity|].
    split; [|now left]. now rewrite forallb_app, Hs.
  - exists t. cbn [fst snd]. split; [reflexivity|]. split; [assumption|].
    right. now split.
Qed.

End Callback.

Lemma auth_budget_eq : auth_budget = 120.
Proof. reflexivity. Qed.

Lemma health_budget_eq : health_budget = 300.
Proof. reflexivity. Qed.

Lemma WaitForHealthyAPIServer_world (env : Collaborators) (w : World) :
  snd (WaitForHealthyAPIServer env w)
  = snd (snd (wait.poll (health_attempts env w) (healthz_condition env) (""%string, w))).
Proof.
  unfold WaitForHealthyAPIServer. rewrite PollImmediate_poll, health_wakeups.
  fold (health_attempts env w).
  destruct (wait.poll _ _ _) as [[e|] [c w']]; reflexivity.
Qed.

Lemma quiet_phase (kind : event -> bool) (t : list event) :
  (forall e, kind e = true ->
             is_StartInformers e = false /\ initFn_calls [e] = []) ->
  forallb kind t = true ->
  existsb is_StartInformers t = false /\ initFn_calls t = [].
Proof.
  intros Hk. induction t as [|e t IH]; intros Hf; [now split|].
  cbn [forallb] in Hf. apply andb_prop in Hf as [He Ht].
  destruct (Hk e He) as [H1 H2]. destruct (IH Ht) as [H3 H4].
  split.
  - cbn [existsb]. now rewrite H1, H3.
  - change (e :: t) with ([e] ++ t). now rewrite initFn_calls_app, H2, H4.
Qed.

Lemma health_phase_quiet (t : list event) :
  forallb health_event t = true ->
  existsb is_StartInformers t = false /\ initFn_calls t = [].
Proof. apply quiet_phase. intros [] H; try discriminate H; now split. Qed.

Lemma auth_phase_quiet (t : list event) :
  forallb auth_event t = true ->
  existsb is_StartInformers t = false /\ initFn_calls t = [].
Proof. apply quiet_phase. intros [] H; try discriminate H; now split. Qed.

Lemma startup_phase_no_informers (t : list event) :
  forallb startup_event t = true -> existsb is_StartInformers t = false.
Proof.
  induction t as [|e t IH]; [reflexivity|]. cbn [forallb existsb].
  intros Hf. apply andb_prop in Hf as [He Ht]. rewrite (IH Ht).
  now destruct e.
Qed.

(** * The readiness waits *)

(** C1.  The two waits treat a failing request differently.
    Authorization, in any world and behind any server: when the first [K]
    access reviews are denied and review [K] fails with [e], for any [K]
    among the attempts of the wait (every [K <= 120] is), the wait returns at
    once an error carrying [e], having made exactly [K + 1] calls and no more.
    Health, in any world and whatever the authorization service does: when
    the probes 0..[J] all fail in transport and an attempt is left after
    them, each such attempt answers "not yet" without an error, the wait
    goes on to the next probe, and its result is never the transport error
    (only nil or the timeout); when every probe the wait gets to make fails
    in transport, it ends in the timeout after all of them, 301 or 302 as
    the tick on the timeout is lost or not. *)
Theorem transport_error_policies (env : Collaborators) :
  (forall (w : World) (K : nat) (e : error),
      K < auth_attempts env w ->
      (forall i, i < K -> sar_denied (sar env (i + sar_calls w))) ->
      sar_failed e (sar env (K + sar_calls w)) ->
      WaitForAuthorizationUpdate env w
      = (Some ("server missing RBAC policy for system:kube-controller-manager: " ++ e)%string,
         answered_sar K w)
      /\ sar_calls (answered_sar K w) = K + 1 + sar_calls w)
  /\ (forall w : World, 121 <= auth_attempts env w <= 122)
  /\ (forall (w : World) (J : nat),
        S J < health_attempts env w ->
        (forall i, i <= J ->
           exists e', healthz env (i + healthz_calls w) = Result_err e') ->
        (forall c, healthz_condition env (c, after_unhealthy J w)
                   = ((false, None), (c, after_unhealthy (S J) w)))
        /\ J + 2 + healthz_calls w
           <= healthz_calls (snd (WaitForHealthyAPIServer env w))
        /\ (fst (WaitForHealthyAPIServer env w) = None
            \/ fst (WaitForHealthyAPIServer env w)
               = Some "server unhealthy: : timed out waiting for the condition"%string))
  /\ (forall w : World,
        (forall i, i < health_attempts env w ->
           exists e', healthz env (i + healthz_calls w) = Result_err e') ->
        WaitForHealthyAPIServer env w
        = (Some "server unhealthy: : timed out waiting for the condition"%string,
           after_unhealthy (health_attempts env w) w))
  /\ (forall w : World, 301 <= health_attempts env w <= 302).
Proof.
  split; [|split; [|split; [|split]]].
  - intros w K e HK Hd He. split.
    + now apply WaitForAuthorizationUpdate_failed.
    + cbn. lia.
  - apply auth_attempts_bounds.
  - intros w J HJ Ht.
    assert (Hno : forall i, i <= J ->
              statusCode (healthz env (i + healthz_calls w)) <> http.StatusOK).
    { intros i Hi. destruct (Ht i Hi) as [e' ->]. discriminate. }
    split; [|split].
    + intros c. rewrite healthz_condition_not_ok.
      * now rewrite after_unhealthy_succ.
      * cbn [after_unhealthy healthz_calls]. apply Hno. lia.
    + rewrite WaitForHealthyAPIServer_world.
      replace (health_attempts env w)
        with (S J + (health_attempts env w - S J)) at 1 by lia.
      rewrite poll_healthz_not_ok by (intros i Hi; apply Hno; lia).
      pose proof (poll_healthz_calls env (health_attempts env w - S J) ""%string
                    (after_unhealthy (S J) w)) as Hc.
      cbn [after_unhealthy healthz_calls] in Hc.
      replace (Nat.min (health_attempts env w - S J) 1) with 1 in Hc by lia.
      lia.
    + apply WaitForHealthyAPIServer_result.
  - intros w Ht. apply WaitForHealthyAPIServer_timeout.
    intros i Hi. destruct (Ht i Hi) as [e' ->]. discriminate.
  - apply health_attempts_bounds.
Qed.

(** C4.  A server that answers every probe with status 500 and the body
    "[-]etcd failed: reason withheld" makes the wait end in the timeout,
    after 301 or 302 probes as the tick on the timeout is lost or not; either
    way the message the wait returns has an empty slot where [healthzContent]
    goes, and the body of the last probe is nowhere in it: the closure
    assigns [healthzContent] only after the status test has passed. *)
Theorem WaitForHealthyAPIServer_drops_body (last_tick : bool) :
  fst (WaitForHealthyAPIServer (with_last_tick last_tick unhealthy_env) World0)
  = Some "server unhealthy: : timed out waiting for the condition"%string
  /\ healthz_calls (snd (WaitForHealthyAPIServer
                           (with_last_tick last_tick unhealthy_env) World0))
     = 301 + Nat.b2n last_tick
  /\ body (healthz (with_last_tick last_tick unhealthy_env) (300 + Nat.b2n last_tick))
     = "[-]etcd failed: reason withheld"%string
  /\ String.index 0 "[-]etcd failed: reason withheld"
                  "server unhealthy: : timed out waiting for the condition"
     = None.
Proof.
  rewrite (WaitForHealthyAPIServer_timeout
             (with_last_tick last_tick unhealthy_env) World0)
    by (intros i _; discriminate).
  destruct last_tick; repeat split.
Qed.

(** On every failure of the health wait the message is the same, whatever
    the probes answered. *)
Lemma WaitForHealthyAPIServer_message (env : Collaborators) (w : World) (e : error) :
  fst (WaitForHealthyAPIServer env w) = Some e ->
  e = "server unhealthy: : timed out waiting for the condition"%string.
Proof.
  intros H. destruct (WaitForHealthyAPIServer_result env w) as [H'|H'];
    rewrite H in H'; congruence.
Qed.

(** C5.  For every [K] up to 120: when the first [K] access reviews are
    answered "denied" and review [K + 1] "allowed", the wait returns nil, and
    the world it leaves shows exactly [K + 1] calls: [K] rounds of review and
    "waiting" line, then the review that was allowed. *)
Theorem WaitForAuthorizationUpdate_denied_then_allowed
        (env : Collaborators) (w : World) (K : nat) :
  K <= 120 ->
  (forall i, i < K -> sar_denied (sar env (i + sar_calls w))) ->
  sar_allowed (sar env (K + sar_calls w)) ->
  WaitForAuthorizationUpdate env w = (None, answered_sar K w)
  /\ sar_calls (answered_sar K w) = K + 1 + sar_calls w.
Proof.
  intros HK Hd Ha. split.
  - pose proof (auth_attempts_bounds env w).
    apply WaitForAuthorizationUpdate_allowed; [lia|assumption|assumption].
  - cbn. lia.
Qed.

(** C8.  When every probe is answered with status 200, a health wait started
    in any world returns nil after exactly one probe and no log line; so does
    the wait repeated after it, and every wait of any number of repetitions. *)
Theorem WaitForHealthyAPIServer_idempotent
        (env : Collaborators) (w : World) :
  (forall i, statusCode (healthz env i) = http.StatusOK) ->
  WaitForHealthyAPIServer env w = (None, answered_healthz 0 w)
  /\ WaitForHealthyAPIServer env (answered_healthz 0 w)
     = (None, answered_healthz 0 (answered_healthz 0 w))
  /\ healthz_calls (answered_healthz 0 w) = 1 + healthz_calls w
  /\ forall n,
      let w_n := Nat.iter n (fun w' => snd (WaitForHealthyAPIServer env w')) w in
      fst (WaitForHealthyAPIServer env w_n) = None
      /\ healthz_calls w_n = n + healthz_calls w.
Proof.
  intros Hok.
  assert (Hone : forall w', WaitForHealthyAPIServer env w' = (None, answered_healthz 0 w')).
  { intros w'. pose proof (health_attempts_bounds env w').
    apply WaitForHealthyAPIServer_ok; [lia| |apply Hok].
    intros i Hi. lia. }
  split; [apply Hone|]. split; [apply Hone|]. split; [reflexivity|].
  intros n w_n. split; [now rewrite Hone|].
  subst w_n. induction n as [|n IH]; [reflexivity|].
  rewrite Nat.iter_succ, Hone. cbn [snd answered_healthz healthz_calls].
  rewrite IH. lia.
Qed.

(** * The startup driver *)

(** C2.  Let the registry be visited as [pre], then [controllerName], then
    [post], where every entry of [pre] is disabled or starts without error,
    and [controllerName] is enabled and its init function returns an error
    [e].  Then [startControllers] ends the process.  The trace it leaves is
    the one of the pass over [pre] alone, kept as it is, followed by the
    invocation of [controllerName] and a fatal line whose arguments are the
    controller's name and [e]; the init functions invoked are the enabled
    entries of [pre] and [controllerName], and none of [post]. *)
Theorem startControllers_fail_fast
        (env : Collaborators) (controllerContext : ControllerContext)
        (pre post : list (string * InitFunc))
        (controllerName : string) (initFn : InitFunc)
        (started : bool) (e : error) (w : World) :
  ControllerInitializers env = pre ++ (controllerName, initFn) :: post ->
  Forall (entry_ok controllerContext) pre ->
  IsControllerEnabled controllerContext controllerName = true ->
  initFn controllerContext = (started, Some e) ->
  exists t_pre,
    range_ControllerInitializers controllerContext pre w
    = (Returned None, extend w t_pre)
    /\ startControllers env controllerContext w
       = (Exited,
          extend w (t_pre ++ [E_klog V1_INFO "Starting %q" [controllerName];
                              E_initFn controllerName;
                              E_klog FATAL "Error starting %q (%v)" [controllerName; e]]))
    /\ initFn_calls (t_pre ++ [E_klog V1_INFO "Starting %q" [controllerName];
                               E_initFn controllerName;
                               E_klog FATAL "Error starting %q (%v)" [controllerName; e]])
       = enabled_names controllerContext pre ++ [controllerName]
    /\ existsb is_FATAL t_pre = false.
Proof.
  intros Hreg Hpre Hen Hinit.
  destruct (range_ok controllerContext pre w Hpre) as [t_pre [Hr [Hc [_ Hf]]]].
  exists t_pre. split; [exact Hr|]. split; [|split; [|exact Hf]].
  - rewrite startControllers_unfold, Hreg, range_app, Hr.
    rewrite (range_fatal controllerContext _ _ _ started e) by assumption.
    now rewrite extend_extend.
  - rewrite initFn_calls_app, Hc. reflexivity.
Qed.

(** C6.  Wherever the pass stands after entries [pre] that let it through, a
    disabled entry leaves one warning and no invocation, an enabled entry
    whose init function returns [(false, nil)] leaves its invocation and a
    "Skipping" warning, and in both cases the pass goes on with the entries
    that follow.  With a registry of three controllers of which the second is
    disabled and the first and third are enabled and start without error,
    a leadership callback whose readiness waits and context construction
    succeed returns normally; the init functions invoked are exactly the
    first and the third, in this order, and [StartInformers] is the single
    last event, after both. *)
Theorem startControllers_skips
        (env : Collaborators) (controllerContext : ControllerContext)
        (n1 n2 n3 : string) (f1 f2 f3 : InitFunc) (w w1 w2 : World) :
  ControllerInitializers env = [(n1, f1); (n2, f2); (n3, f3)] ->
  IsControllerEnabled controllerContext n1 = true ->
  IsControllerEnabled controllerContext n2 = false ->
  IsControllerEnabled controllerContext n3 = true ->
  snd (f1 controllerContext) = None ->
  snd (f3 controllerContext) = None ->
  WaitForHealthyAPIServer env w = (None, w1) ->
  WaitForAuthorizationUpdate env w1 = (None, w2) ->
  NewControllerContext env = (controllerContext, None) ->
  (forall ctx pre controllerName initFn post w0,
      Forall (entry_ok ctx) pre ->
      exists t_pre,
        range_ControllerInitializers ctx pre w0 = (Returned None, extend w0 t_pre)
        /\ (IsControllerEnabled ctx controllerName = false ->
            range_ControllerInitializers ctx (pre ++ (controllerName, initFn) :: post) w0
            = range_ControllerInitializers ctx post
                (extend w0 (t_pre ++ [E_klog WARNING "%q is disabled" [controllerName]])))
        /\ (IsControllerEnabled ctx controllerName = true ->
            initFn ctx = (false, None) ->
            range_ControllerInitializers ctx (pre ++ (controllerName, initFn) :: post) w0
            = range_ControllerInitializers ctx post
                (extend w0 (t_pre ++ [E_klog V1_INFO "Starting %q" [controllerName];
                                      E_initFn controllerName;
                                      E_klog WARNING "Skipping %q" [controllerName]]))))
  /\ exists t,
      fst (originControllerManager env w) = Returned tt
      /\ trace (snd (originControllerManager env w)) = trace w ++ t ++ [E_StartInformers]
      /\ initFn_calls t = [n1; n3]
      /\ existsb is_StartInformers t = false.
Proof.
  intros Hreg H1 H2 H3 Hf1 Hf3 HwH HwA Hctx. split.
  - intros ctx pre controllerName initFn post w0 Hpre.
    destruct (range_ok ctx pre w0 Hpre) as [t_pre [Hr _]].
    exists t_pre. split; [exact Hr|]. split.
    + intros Hd. rewrite range_app, Hr, range_disabled by assumption.
      now rewrite extend_extend.
    + intros He Hi. rewrite range_app, Hr, range_skipped by assumption.
      now rewrite extend_extend.
  - assert (Hok : Forall (entry_ok controllerContext) [(n1, f1); (n2, f2); (n3, f3)]).
    { constructor; [right; exact Hf1|].
      constructor; [left; exact H2|].
      constructor; [right; exact Hf3|constructor]. }
    destruct (range_ok controllerContext _ (extend w2 [E_NewControllerContext]) Hok)
      as [tC [Hr [Hc [Hs _]]]].
    pose proof (WaitForHealthyAPIServer_leaves env w) as [tH [EH FH]].
    pose proof (WaitForAuthorizationUpdate_leaves env w1) as [tA [EA FA]].
    rewrite HwH in EH. rewrite HwA in EA. cbn [snd] in EH, EA.
    rewrite originControllerManager_unfold, HwH, HwA, Hctx.
    rewrite startControllers_unfold, Hreg, Hr.
    exists (tH ++ tA ++ [E_NewControllerContext] ++ tC
               ++ [E_klog INFO "Started Origin Controllers" []]).
    split; [reflexivity|]. split; [|split].
    + cbn [snd extend trace]. rewrite EA, EH.
      now rewrite <- !app_assoc.
    + destruct (health_phase_quiet tH FH) as [_ HqH].
      destruct (auth_phase_quiet tA FA) as [_ HqA].
      rewrite !initFn_calls_app, HqH, HqA, Hc. unfold enabled_names. cbn [filter fst map].
      rewrite H1, H2, H3. reflexivity.
    + destruct (health_phase_quiet tH FH) as [HqH _].
      destruct (auth_phase_quiet tA FA) as [HqA _].
      rewrite !existsb_app, HqH, HqA, (startup_phase_no_informers tC Hs).
      reflexivity.
Qed.

(** C10.  When every entry of the registry is disabled or has an init
    function returning [(false, nil)] (the empty registry included),
    [startControllers] returns nil from any world and logs no controller as
    started; and a leadership callback whose readiness waits and context
    construction succeed then returns normally with [StartInformers] as its
    last event. *)
Theorem startControllers_nothing_to_start
        (env : Collaborators) (controllerContext : ControllerContext) :
  Forall (entry_idle controllerContext) (ControllerInitializers env) ->
  (forall w, exists t,
      startControllers env controllerContext w = (Returned None, extend w t)
      /\ started_names t = [])
  /\ (forall w w1 w2,
        WaitForHealthyAPIServer env w = (None, w1) ->
        WaitForAuthorizationUpdate env w1 = (None, w2) ->
        NewControllerContext env = (controllerContext, None) ->
        exists t,
          originControllerManager env w
          = (Returned tt, extend w2 (t ++ [E_StartInformers]))
          /\ started_names t = []).
Proof.
  intros Hidle.
  assert (Hstart : forall w, exists t,
             startControllers env controllerContext w = (Returned None, extend w t)
             /\ started_names t = []).
  { intros w.
    destruct (range_idle controllerContext _ w Hidle) as [t [Hr [Hn _]]].
    exists (t ++ [E_klog INFO "Started Origin Controllers" []]).
    rewrite startControllers_unfold, Hr, extend_extend.
    split; [reflexivity|]. now rewrite started_names_app, Hn. }
  split; [exact Hstart|].
  intros w w1 w2 HwH HwA Hctx.
  destruct (Hstart (extend w2 [E_NewControllerContext])) as [t [Hs Hn]].
  exists ([E_NewControllerContext] ++ t).
  rewrite originControllerManager_unfold, HwH, HwA, Hctx, Hs.
  rewrite !extend_extend, <- app_assoc. split; [reflexivity|].
  now rewrite started_names_app, Hn.
Qed.

(** * The orchestrator *)


(** [OnStoppedLeading] ends the process with a fatal line. *)
Lemma OnStoppedLeading_exits (w : World) :
  OnStoppedLeading w = (Exited, extend w [E_klog FATAL "leaderelection lost" []]).
Proof. reflexivity. Qed.

(** While Leading, the loop renews until a renewal fails; the loss callback
    of the program then ends the process, whatever the service would answer
    next. *)
Lemma RunOrDie_Leading (env : Collaborators) (answers : list bool) (w : World) :
  exists r,
    (answers = repeat true r
     /\ RunOrDie (Callbacks env) Leading answers w
        = (Returned tt, extend w (repeat (E_renew true) r)))
    \/ exists rest,
        answers = repeat true r ++ false :: rest
        /\ RunOrDie (Callbacks env) Leading answers w
           = (Exited,
              extend w (repeat (E_renew true) r
                        ++ [E_renew false; E_klog FATAL "leaderelection lost" []])).
Proof.
  revert w. induction answers as [|granted answers IH]; intros w.
  - exists 0. left. split; [reflexivity|]. cbn. now rewrite extend_nil.
  - destruct granted.
    + destruct (IH (extend w [E_renew true])) as [r [[-> Hrun]|[rest [-> Hrun]]]];
        exists (S r); [left|right; exists rest]; (split; [reflexivity|]);
        cbn [RunOrDie]; unfold bind, record;
        change (emit (E_renew true) w) with (extend w [E_renew true]);
        rewrite Hrun, extend_extend; reflexivity.
    + exists 0. right. exists answers. split; [reflexivity|].
      cbn [RunOrDie]. unfold bind, record, Callbacks. cbn [cbOnStoppedLeading].
      change (emit (E_renew false) w) with (extend w [E_renew false]).
      rewrite OnStoppedLeading_exits, extend_extend. reflexivity.
Qed.

(** C7.  Every run of the election loop with the program's callbacks, for any
    answers of the coordination service, is one of three.  The lease is never
    obtained: only failed acquisition attempts, no callback.  Or it is
    obtained at the first successful attempt and kept: the successful attempt
    is followed at once by one invocation of the leadership callback, and
    only renewals follow.  Or it is obtained and later lost: the same, and
    the failed renewal is followed by the fatal line of the loss callback,
    with which the process exits; the trace ends there, so whatever the
    service would answer afterwards ([rest]) no further acquisition is
    attempted and the callback is invoked no second time. *)
Theorem leadership_lifecycle (env : Collaborators) (answers : list bool) (w : World) :
  exists a,
    (answers = repeat false a
     /\ RunOrDie (Callbacks env) Standby answers w
        = (Returned tt, extend w (repeat (E_acquire false) a)))
    \/ exists r,
        (answers = repeat false a ++ true :: repeat true r
         /\ RunOrDie (Callbacks env) Standby answers w
            = (Returned tt,
               extend w (repeat (E_acquire false) a
                         ++ [E_acquire true; E_go_OnStartedLeading]
                         ++ repeat (E_renew true) r)))
        \/ exists rest,
            answers = repeat false a ++ true :: repeat true r ++ false :: rest
            /\ RunOrDie (Callbacks env) Standby answers w
               = (Exited,
                  extend w (repeat (E_acquire false) a
                            ++ [E_acquire true; E_go_OnStartedLeading]
                            ++ repeat (E_renew true) r
                            ++ [E_renew false;
                                E_klog FATAL "leaderelection lost" []])).
Proof.
  revert w. induction answers as [|granted answers IH]; intros w.
  - exists 0. left. split; [reflexivity|]. cbn. now rewrite extend_nil.
  - destruct granted.
    + exists 0. right.
      destruct (RunOrDie_Leading env answers
                  (extend w [E_acquire true; E_go_OnStartedLeading]))
        as [r [[-> Hrun]|[rest [-> Hrun]]]];
        exists r; [left|right; exists rest]; (split; [reflexivity|]);
        cbn [RunOrDie]; unfold bind, record;
        replace (emit E_go_OnStartedLeading (emit (E_acquire true) w))
          with (extend w [E_acquire true; E_go_OnStartedLeading])
          by (unfold emit, extend; cbn; now rewrite <- app_assoc);
        rewrite Hrun, extend_extend; reflexivity.
    + destruct (IH (extend w [E_acquire false]))
        as [a [[-> Hrun]|[r [[-> Hrun]|[rest [-> Hrun]]]]]];
        exists (S a);
        [left|right; exists r; left|right; exists r; right; exists rest];
        (split; [reflexivity|]);
        cbn [RunOrDie]; unfold bind, record;
        change (emit (E_acquire false) w) with (extend w [E_acquire false]);
        rewrite Hrun, extend_extend; reflexivity.
Qed.

(** C9.  When client construction, the controller server start (if serving
    information is configured), the hostname lookup and the construction of
    the resource lock all succeed, [RunClusterPolicyController] returns nil;
    the last thing it did is spawn the election loop, and before that it made
    only setup calls: no probe, no access review, no context construction, no
    init call, no [StartInformers], whatever the collaborators of the
    callback would answer.  A failure in the callback chain (a readiness
    wait, the context construction, the startup pass) makes the callback end
    the process with a fatal line as its last event; without one the callback
    returns normally. *)
Theorem RunClusterPolicyController_returns_nil
        (env : Collaborators) (config : OpenShiftControllerManagerConfig) (w : World) :
  NewForConfig env = None ->
  (cfgServingInfo config = None \/ RunControllerServer env = None) ->
  snd (Hostname env) = None ->
  resourcelock_New env = None ->
  (exists t lec,
      RunClusterPolicyController env config w
      = (None, extend w (t ++ [E_go_RunOrDie lec]))
      /\ forallb setup_event t = true)
  /\ (forall w0,
        callback_failed env w0 ->
        fst (originControllerManager env w0) = Exited
        /\ exists t format args,
            trace (snd (originControllerManager env w0))
            = t ++ [E_klog FATAL format args])
  /\ (forall w0,
        ~ callback_failed env w0 ->
        fst (originControllerManager env w0) = Returned tt).
Proof.
  intros Hclient Hserve Hhost Hlock. split; [|split].
  - unfold RunClusterPolicyController. rewrite Hclient, Hlock.
    destruct (Hostname env) as [id errh]. cbn in Hhost. subst errh.
    destruct (cfgServingInfo config) as [servingInfo|].
    + destruct Hserve as [Hs|Hs]; [discriminate Hs|]. rewrite Hs.
      eexists [_; _; _; _], _. unfold emit, extend. cbn [healthz_calls sar_calls trace].
      rewrite <- !app_assoc. split; reflexivity.
    + eexists [_; _], _. unfold emit, extend. cbn [healthz_calls sar_calls trace].
      rewrite <- !app_assoc. split; reflexivity.
  - intros w0. unfold callback_failed. rewrite originControllerManager_unfold.
    destruct (WaitForHealthyAPIServer env w0) as [[e|] w1].
    { intros _. split; [reflexivity|]. now exists (trace w1), ""%string, [e]. }
    intros [H|H]; [congruence|]. revert H.
    destruct (WaitForAuthorizationUpdate env w1) as [[e|] w2].
    { intros _. split; [reflexivity|]. now exists (trace w2), ""%string, [e]. }
    intros [H|H]; [congruence|]. revert H.
    destruct (NewControllerContext env) as [controllerContext [e|]].
    { intros _. split; [reflexivity|].
      exists (trace w2 ++ [E_NewControllerContext]), ""%string, [e].
      cbn. now rewrite <- app_assoc. }
    intros [H|H]; [congruence|].
    change (emit E_NewControllerContext w2) with (extend w2 [E_NewControllerContext]) in H.
    destruct (startControllers_any env controllerContext (extend w2 [E_NewControllerContext]))
      as [tC [EC [_ HC]]].
    destruct (startControllers env controllerContext _) as [o w3]; cbn [fst snd] in *.
    destruct HC as [->|[-> [t' [format [args ->]]]]]; [congruence|].
    split; [reflexivity|]. subst w3.
    exists (trace (extend w2 [E_NewControllerContext]) ++ t'), format, args.
    cbn. now rewrite <- !app_assoc.
  - intros w0. unfold callback_failed. rewrite originControllerManager_unfold.
    destruct (WaitForHealthyAPIServer env w0) as [[e|] w1].
    { intros H. exfalso. apply H. left. discriminate. }
    destruct (WaitForAuthorizationUpdate env w1) as [[e|] w2].
    { intros H. exfalso. apply H. right. left. discriminate. }
    destruct (NewControllerContext env) as [controllerContext [e|]].
    { intros H. exfalso. apply H. right. right. left. discriminate. }
    change (emit E_NewControllerContext w2) with (extend w2 [E_NewControllerContext]).
    destruct (startControllers_any env controllerContext (extend w2 [E_NewControllerContext]))
      as [tC [EC [_ HC]]].
    destruct (startControllers env controllerContext _) as [o w3]; cbn [fst snd] in *.
    destruct HC as [->|[-> _]]; [reflexivity|].
    intros H. exfalso. apply H. right. right. right. discriminate.
Qed.

(** * The theorems at work on sample collaborators *)

Lemma transport_error_policies_witness :
  WaitForAuthorizationUpdate refusing_env World0
  = (Some "server missing RBAC policy for system:kube-controller-manager: connection refused"%string,
     answered_sar 2 World0)
  /\ WaitForHealthyAPIServer refusing_env World0
     = (Some "server unhealthy: : timed out waiting for the condition"%string,
        after_unhealthy 302 World0).
Proof.
  destruct (transport_error_policies refusing_env) as [Ha [_ [_ [Ht _]]]].
  split.
  - apply (Ha World0 2 "connection refused"%string).
    + vm_compute. lia.
    + intros i Hi. destruct i as [|[|i]]; [split; reflexivity|split; reflexivity|lia].
    + reflexivity.
  - apply (Ht World0). intros i _. now exists "connection refused"%string.
Defined.

Lemma WaitForAuthorizationUpdate_denied_then_allowed_witness :
  WaitForAuthorizationUpdate settling_env World0 = (None, answered_sar 2 World0)
  /\ sar_calls (answered_sar 2 World0) = 3.
Proof.
  apply (WaitForAuthorizationUpdate_denied_then_allowed settling_env World0 2).
  - lia.
  - intros i Hi. destruct i as [|[|i]]; [split; reflexivity|split; reflexivity|lia].
  - split; reflexivity.
Defined.

Lemma WaitForHealthyAPIServer_idempotent_witness :
  WaitForHealthyAPIServer settling_env World0 = (None, answered_healthz 0 World0)
  /\ WaitForHealthyAPIServer settling_env (answered_healthz 0 World0)
     = (None, answered_healthz 0 (answered_healthz 0 World0)).
Proof.
  destruct (WaitForHealthyAPIServer_idempotent settling_env World0) as [H1 [H2 _]].
  - intros i. reflexivity.
  - split; [exact H1|exact H2].
Defined.

Lemma startControllers_fail_fast_witness :
  startControllers failing_env sample_context World0
  = (Exited,
     extend World0
       [E_klog V1_INFO "Starting %q" ["openshift.io/namespace-security-allocation"%string];
        E_initFn "openshift.io/namespace-security-allocation";
        E_klog INFO "Started %q" ["openshift.io/namespace-security-allocation"%string];
        E_klog WARNING "%q is disabled" ["openshift.io/resourcequota"%string];
        E_klog V1_INFO "Starting %q" ["openshift.io/cluster-quota-reconciliation"%string];
        E_initFn "openshift.io/cluster-quota-reconciliation";
        E_klog FATAL "Error starting %q (%v)"
               ["openshift.io/cluster-quota-reconciliation"%string;
                "failed to get api resources"%string]]).
Proof.
  destruct (startControllers_fail_fast failing_env sample_context
              [("openshift.io/namespace-security-allocation"%string, starts);
               ("openshift.io/resourcequota"%string, starts)]
              [("openshift.io/cluster-csr-approver"%string, starts)]
              "openshift.io/cluster-quota-reconciliation"%string breaks
              false "failed to get api resources"%string World0)
    as [t_pre [Hpre [Hrun _]]].
  - reflexivity.
  - constructor; [right; reflexivity|].
    constructor; [left; reflexivity|constructor].
  - reflexivity.
  - reflexivity.
  - rewrite Hrun. injection Hpre as Hpre.
    apply (app_inv_head []) in Hpre. now subst t_pre.
Defined.

Lemma startControllers_skips_witness :
  fst (originControllerManager three_env World0) = Returned tt
  /\ initFn_calls (trace (snd (originControllerManager three_env World0)))
     = ["openshift.io/namespace-security-allocation"%string;
        "openshift.io/cluster-quota-reconciliation"%string]
  /\ last (trace (snd (originControllerManager three_env World0))) E_Get_healthz
     = E_StartInformers.
Proof.
  destruct (startControllers_skips three_env sample_context
              "openshift.io/namespace-security-allocation"%string
              "openshift.io/resourcequota"%string
              "openshift.io/cluster-quota-reconciliation"%string
              starts starts declines
              World0 (answered_healthz 0 World0)
              (answered_sar 0 (answered_healthz 0 World0)))
    as [_ [t [Hret [Htrace [Hcalls _]]]]]; try reflexivity.
  split; [exact Hret|]. rewrite Htrace. cbn [World0 trace app].
  rewrite initFn_calls_app, Hcalls, last_last. now split.
Defined.

Lemma startControllers_nothing_to_start_witness :
  fst (startControllers idle_env sample_context World0) = Returned None
  /\ fst (originControllerManager idle_env World0) = Returned tt.
Proof.
  destruct (startControllers_nothing_to_start idle_env sample_context) as [Hs Ho].
  - constructor; [left; reflexivity|].
    constructor; [right; reflexivity|constructor].
  - split.
    + destruct (Hs World0) as [t [-> _]]. reflexivity.
    + destruct (Ho World0 (answered_healthz 0 World0)
                   (answered_sar 0 (answered_healthz 0 World0)))
        as [t [-> _]]; reflexivity.
Defined.

Lemma RunClusterPolicyController_returns_nil_witness :
  fst (RunClusterPolicyController unhealthy_env sample_config World0) = None
  /\ fst (originControllerManager unhealthy_env World0) = Exited.
Proof.
  destruct (RunClusterPolicyController_returns_nil unhealthy_env sample_config World0)
    as [[t [lec [-> _]]] [Hfail _]].
  - reflexivity.
  - right. reflexivity.
  - reflexivity.
  - reflexivity.
  - split; [reflexivity|]. apply Hfail.
    unfold callback_failed.
    rewrite (WaitForHealthyAPIServer_timeout unhealthy_env World0)
      by (intros i _; discriminate).
    left. discriminate.
Defined.

(** * Complete case analyses of the waits *)

(** Up to [n], a decidable property holds throughout or has a first
    exception. *)
Lemma first_exception (P : nat -> Prop) (n : nat) :
  (forall i, P i \/ ~ P i) ->
  (forall i, i < n -> P i)
  \/ exists K, K < n /\ (forall i, i < K -> P i) /\ ~ P K.
Proof.
  intros Hdec. induction n as [|n [Hall|[K [HK [Hbefore HnK]]]]].
  - left. intros i Hi. lia.
  - destruct (Hdec n) as [Hn|Hn].
    + left. intros i Hi. destruct (Nat.eq_dec i n) as [->|Hne]; [exact Hn|].
      apply Hall. lia.
    + right. exists n. repeat split; auto.
  - right. exists K. repeat split; auto.
Qed.

Lemma sar_answer_cases (r : SubjectAccessReview * option error) :
  sar_denied r \/ sar_allowed r \/ exists e, sar_failed e r.
Proof.
  unfold sar_denied, sar_allowed, sar_failed. destruct r as [response [e|]]; cbn.
  - right. right. now exists e.
  - destruct (Allowed (Status response)); auto.
Qed.

Lemma sar_denied_dec (r : SubjectAccessReview * option error) :
  sar_denied r \/ ~ sar_denied r.
Proof.
  destruct (sar_answer_cases r) as [H|[[He Ha]|[e He]]]; [now left| |];
    right; intros [He' Ha']; unfold sar_failed in *; congruence.
Qed.

Lemma reviews_app (t1 t2 : list event) :
  reviews (t1 ++ t2) = reviews t1 ++ reviews t2.
Proof. apply flat_map_app. Qed.

Lemma reviews_rounds (K : nat) :
  reviews (rounds sar_retry K) = repeat review K.
Proof.
  induction K as [|K IH]; [reflexivity|].
  cbn [rounds]. rewrite reviews_app, IH. reflexivity.
Qed.

Section WaitCases.

Variable env : Collaborators.

Lemma WaitForAuthorizationUpdate_all_denied (w : World) :
  (forall i, i < auth_attempts env w -> sar_denied (sar env (i + sar_calls w))) ->
  WaitForAuthorizationUpdate env w
  = (Some "server missing RBAC policy for system:kube-controller-manager: timed out waiting for the condition"%string,
     after_denied (auth_attempts env w) w).
Proof.
  intros Hd. unfold WaitForAuthorizationUpdate.
  rewrite PollImmediate_poll, auth_wakeups. fold (auth_attempts env w).
  replace (auth_attempts env w) with (auth_attempts env w + 0) at 1 by lia.
  rewrite poll_sar_denied by (intros i Hi; apply Hd; lia).
  reflexivity.
Qed.

(** The wait ends at the first review that is not denied, or runs out of
    attempts. *)
Lemma WaitForAuthorizationUpdate_ends (w : World) :
  (exists K,
      K < auth_attempts env w
      /\ (forall i, i < K -> sar_denied (sar env (i + sar_calls w)))
      /\ sar_allowed (sar env (K + sar_calls w))
      /\ WaitForAuthorizationUpdate env w = (None, answered_sar K w))
  \/ (exists K e,
         K < auth_attempts env w
         /\ (forall i, i < K -> sar_denied (sar env (i + sar_calls w)))
         /\ sar_failed e (sar env (K + sar_calls w))
         /\ WaitForAuthorizationUpdate env w
            = (Some ("server missing RBAC policy for system:kube-controller-manager: " ++ e)%string,
               answered_sar K w))
  \/ ((forall i, i < auth_attempts env w -> sar_denied (sar env (i + sar_calls w)))
      /\ WaitForAuthorizationUpdate env w
         = (Some "server missing RBAC policy for system:kube-controller-manager: timed out waiting for the condition"%string,
            after_denied (auth_attempts env w) w)).
Proof.
  destruct (first_exception (fun i => sar_denied (sar env (i + sar_calls w)))
              (auth_attempts env w) (fun i => sar_denied_dec _))
    as [Hall|[K [HK [Hbefore HnK]]]].
  - right. right. split; [exact Hall|].
    now apply WaitForAuthorizationUpdate_all_denied.
  - destruct (sar_answer_cases (sar env (K + sar_calls w))) as [Hd|[Ha|[e He]]];
      [contradiction| |].
    + left. exists K. split; [lia|]. split; [exact Hbefore|]. split; [exact Ha|].
      apply WaitForAuthorizationUpdate_allowed; [lia|assumption|assumption].
    + right. left. exists K, e. split; [lia|]. split; [exact Hbefore|].
      split; [exact He|].
      apply WaitForAuthorizationUpdate_failed; [lia|assumption|assumption].
Qed.

(** The wait makes at least one review and no more than its attempts, all
    of them the fixed [review], and leaves the probe counter alone. *)
Lemma WaitForAuthorizationUpdate_frame (w : World) :
  exists t,
    snd (WaitForAuthorizationUpdate env w)
    = {| healthz_calls := healthz_calls w;
         sar_calls := List.length (reviews t) + sar_calls w;
         trace := trace w ++ t |}
    /\ 1 <= List.length (reviews t) <= auth_attempts env w
    /\ reviews t = repeat review (List.length (reviews t))
    /\ forallb auth_event t = true.
Proof.
  assert (Hlen : forall K, List.length (repeat review K) = K) by (intros; apply repeat_length).
  pose proof (auth_attempts_bounds env w) as Hbounds.
  destruct (WaitForAuthorizationUpdate_ends w)
    as [[K [HK [_ [_ ->]]]]|[[K [e [HK [_ [_ ->]]]]]|[_ ->]]]; cbn [snd].
  - exists (rounds sar_retry K ++ [E_SubjectAccessReviews_Create review]).
    rewrite reviews_app, reviews_rounds. cbn [reviews flat_map app].
    rewrite length_app, Hlen. cbn [List.length].
    replace (K + 1) with (S K) by lia. unfold answered_sar.
    split; [reflexivity|]. split; [lia|]. split.
    + replace (S K) with (K + 1) by lia. now rewrite repeat_app.
    + rewrite forallb_app. cbn. rewrite andb_true_r.
      clear. induction K as [|K IH]; [reflexivity|]. exact IH.
  - exists (rounds sar_retry K ++ [E_SubjectAccessReviews_Create review]).
    rewrite reviews_app, reviews_rounds. cbn [reviews flat_map app].
    rewrite length_app, Hlen. cbn [List.length].
    replace (K + 1) with (S K) by lia. unfold answered_sar.
    split; [reflexivity|]. split; [lia|]. split.
    + replace (S K) with (K + 1) by lia. now rewrite repeat_app.
    + rewrite forallb_app. cbn. rewrite andb_true_r.
      clear. induction K as [|K IH]; [reflexivity|]. exact IH.
  - exists (rounds sar_retry (auth_attempts env w)).
    rewrite reviews_rounds, Hlen. unfold after_denied.
    split; [reflexivity|]. split; [lia|]. split; [reflexivity|].
    generalize (auth_attempts env w). intros K.
    induction K as [|K IH]; [reflexivity|]. exact IH.
Qed.

End WaitCases.

Section HealthCases.

Variable env : Collaborators.

(** The wait ends at the first probe answered with status 200, or runs out
    of attempts. *)
Lemma WaitForHealthyAPIServer_ends (w : World) :
  (exists K,
      K < health_attempts env w
      /\ (forall i, i < K ->
            statusCode (healthz env (i + healthz_calls w)) <> http.StatusOK)
      /\ statusCode (healthz env (K + healthz_calls w)) = http.StatusOK
      /\ WaitForHealthyAPIServer env w = (None, answered_healthz K w))
  \/ ((forall i, i < health_attempts env w ->
         statusCode (healthz env (i + healthz_calls w)) <> http.StatusOK)
      /\ WaitForHealthyAPIServer env w
         = (Some "server unhealthy: : timed out waiting for the condition"%string,
            after_unhealthy (health_attempts env w) w)).
Proof.
  destruct (first_exception
              (fun i => statusCode (healthz env (i + healthz_calls w)) <> http.StatusOK)
              (health_attempts env w))
    as [Hall|[K [HK [Hbefore HnK]]]].
  - intros i. destruct (Z.eq_dec (statusCode (healthz env (i + healthz_calls w)))
                                 http.StatusOK); auto.
  - right. split; [exact Hall|]. now apply WaitForHealthyAPIServer_timeout.
  - left. exists K.
    assert (Hok : statusCode (healthz env (K + healthz_calls w)) = http.StatusOK).
    { destruct (Z.eq_dec (statusCode (healthz env (K + healthz_calls w)))
                         http.StatusOK); [assumption|contradiction]. }
    split; [lia|]. split; [exact Hbefore|]. split; [exact Hok|].
    apply WaitForHealthyAPIServer_ok; [lia|assumption|assumption].
Qed.

(** The wait makes at least one probe and no more than its attempts, and
    leaves the review counter alone. *)
Lemma WaitForHealthyAPIServer_frame (w : World) :
  healthz_calls w < healthz_calls (snd (WaitForHealthyAPIServer env w))
  /\ healthz_calls (snd (WaitForHealthyAPIServer env w))
     <= healthz_calls w + health_attempts env w
  /\ sar_calls (snd (WaitForHealthyAPIServer env w)) = sar_calls w.
Proof.
  pose proof (health_attempts_bounds env w) as Hbounds.
  destruct (WaitForHealthyAPIServer_ends w) as [[K [HK [_ [_ ->]]]]|[_ ->]];
    cbn [snd answered_healthz after_unhealthy healthz_calls sar_calls]; lia.
Qed.

End HealthCases.

(** * More on the readiness waits *)

(** X1.  When every access review the wait gets to make is denied, the wait
    gives up: it returns the RBAC error wrapping the timeout, having made all
    its attempts (121, or 122 when the tick on the timeout is not lost), each
    followed by its "waiting" line. *)
Theorem WaitForAuthorizationUpdate_timeout (env : Collaborators) (w : World) :
  (forall i, i < auth_attempts env w -> sar_denied (sar env (i + sar_calls w))) ->
  WaitForAuthorizationUpdate env w
  = (Some "server missing RBAC policy for system:kube-controller-manager: timed out waiting for the condition"%string,
     after_denied (auth_attempts env w) w)
  /\ sar_calls (after_denied (auth_attempts env w) w) = auth_attempts env w + sar_calls w
  /\ 121 <= auth_attempts env w <= 122.
Proof.
  intros Hd. split; [|split].
  - now apply WaitForAuthorizationUpdate_all_denied.
  - reflexivity.
  - apply auth_attempts_bounds.
Qed.

(** X2.  Every run of the authorization wait is one of three: some review
    [K] among its attempts is the first not denied and is allowed (nil after
    [K + 1] reviews); or it is the first not denied and fails with [e] (the
    RBAC error wrapping [e] after [K + 1] reviews); or all attempts are
    denied (the RBAC error wrapping the timeout).  The attempts are 121, or
    122 when the tick on the timeout is not lost. *)
Theorem WaitForAuthorizationUpdate_cases (env : Collaborators) (w : World) :
  ((exists K,
       K < auth_attempts env w
       /\ (forall i, i < K -> sar_denied (sar env (i + sar_calls w)))
       /\ sar_allowed (sar env (K + sar_calls w))
       /\ WaitForAuthorizationUpdate env w = (None, answered_sar K w))
   \/ (exists K e,
          K < auth_attempts env w
          /\ (forall i, i < K -> sar_denied (sar env (i + sar_calls w)))
          /\ sar_failed e (sar env (K + sar_calls w))
          /\ WaitForAuthorizationUpdate env w
             = (Some ("server missing RBAC policy for system:kube-controller-manager: " ++ e)%string,
                answered_sar K w))
   \/ ((forall i, i < auth_attempts env w -> sar_denied (sar env (i + sar_calls w)))
       /\ WaitForAuthorizationUpdate env w
          = (Some "server missing RBAC policy for system:kube-controller-manager: timed out waiting for the condition"%string,
             after_denied (auth_attempts env w) w)))
  /\ auth_attempts env w = 121 + Nat.b2n (sar_last_tick env (sar_calls w)).
Proof.
  split; [apply WaitForAuthorizationUpdate_ends|reflexivity].
Qed.

(** X3.  Whatever the service answers, the authorization wait submits at
    least one and at most 122 reviews, every one of them the same fixed
    [review]; it issues no health probe and leaves only reviews and log
    lines; and an error it returns always starts with the RBAC prefix. *)
Theorem WaitForAuthorizationUpdate_bounds (env : Collaborators) (w : World) :
  (exists t,
      trace (snd (WaitForAuthorizationUpdate env w)) = trace w ++ t
      /\ sar_calls (snd (WaitForAuthorizationUpdate env w))
         = List.length (reviews t) + sar_calls w
      /\ 1 <= List.length (reviews t) <= 122
      /\ reviews t = repeat review (List.length (reviews t))
      /\ forallb auth_event t = true)
  /\ healthz_calls (snd (WaitForAuthorizationUpdate env w)) = healthz_calls w
  /\ (forall e,
        fst (WaitForAuthorizationUpdate env w) = Some e ->
        exists e',
          e = ("server missing RBAC policy for system:kube-controller-manager: " ++ e')%string).
Proof.
  pose proof (auth_attempts_bounds env w) as Hbounds.
  split; [|split].
  - destruct (WaitForAuthorizationUpdate_frame env w) as [t [-> [Hb [Hr Hf]]]].
    exists t. repeat split; try assumption; cbn; lia.
  - destruct (WaitForAuthorizationUpdate_frame env w) as [t [-> _]]. reflexivity.
  - intros e.
    destruct (WaitForAuthorizationUpdate_ends env w)
      as [[K [_ [_ [_ ->]]]]|[[K [e' [_ [_ [_ ->]]]]]|[_ ->]]]; cbn [fst];
      intros He; inversion He.
    + now exists e'.
    + now exists wait.ErrWaitTimeout.
Qed.

(** X4.  Every run of the health wait is one of two: some probe [K] among
    its attempts is the first answered with status 200 (nil after [K + 1]
    probes), or none of its attempts is (the timeout error, each probe
    followed by its "not healthy yet" line).  The attempts are 301, or 302
    when the tick on the timeout is not lost. *)
Theorem WaitForHealthyAPIServer_cases (env : Collaborators) (w : World) :
  ((exists K,
       K < health_attempts env w
       /\ (forall i, i < K ->
             statusCode (healthz env (i + healthz_calls w)) <> http.StatusOK)
       /\ statusCode (healthz env (K + healthz_calls w)) = http.StatusOK
       /\ WaitForHealthyAPIServer env w = (None, answered_healthz K w))
   \/ ((forall i, i < health_attempts env w ->
          statusCode (healthz env (i + healthz_calls w)) <> http.StatusOK)
       /\ WaitForHealthyAPIServer env w
          = (Some "server unhealthy: : timed out waiting for the condition"%string,
             after_unhealthy (health_attempts env w) w)))
  /\ health_attempts env w = 301 + Nat.b2n (healthz_last_tick env (healthz_calls w)).
Proof.
  split; [apply WaitForHealthyAPIServer_ends|reflexivity].
Qed.

(** X5.  The health wait returns nil exactly when one of the probes it gets
    to make (301, or 302 when the tick on the timeout is not lost) is
    answered with status 200: only the status code counts, not the body and
    not the error the result carries. *)
Theorem WaitForHealthyAPIServer_nil_iff (env : Collaborators) (w : World) :
  (fst (WaitForHealthyAPIServer env w) = None
   <-> exists K,
       K < health_attempts env w
       /\ statusCode (healthz env (K + healthz_calls w)) = http.StatusOK)
  /\ health_attempts env w = 301 + Nat.b2n (healthz_last_tick env (healthz_calls w)).
Proof.
  split; [|reflexivity].
  destruct (WaitForHealthyAPIServer_ends env w) as [[K [HK [_ [Hok ->]]]]|[Hall ->]];
    cbn [fst]; split.
  - intros _. now exists K.
  - reflexivity.
  - discriminate.
  - intros [K [HK Hok]]. now apply Hall in Hok.
Qed.

(** X6.  Whatever the server answers, the health wait issues at least one
    and at most 302 probes, submits no access review, and leaves only probes
    and log lines. *)
Theorem WaitForHealthyAPIServer_bounds (env : Collaborators) (w : World) :
  healthz_calls w < healthz_calls (snd (WaitForHealthyAPIServer env w))
  /\ healthz_calls (snd (WaitForHealthyAPIServer env w)) <= healthz_calls w + 302
  /\ sar_calls (snd (WaitForHealthyAPIServer env w)) = sar_calls w
  /\ leaves health_event w (snd (WaitForHealthyAPIServer env w)).
Proof.
  pose proof (WaitForHealthyAPIServer_frame env w) as [H1 [H2 H3]].
  pose proof (health_attempts_bounds env w) as Hbounds.
  repeat split; try assumption; try lia. apply WaitForHealthyAPIServer_leaves.
Qed.

(** * Complete case analysis of the startup pass *)

Lemma enabled_names_app (controllerContext : ControllerContext)
      (l1 l2 : list (string * InitFunc)) :
  enabled_names controllerContext (l1 ++ l2)
  = enabled_names controllerContext l1 ++ enabled_names controllerContext l2.
Proof. unfold enabled_names. now rewrite filter_app, map_app. Qed.

Section StartupCases.

Variable controllerContext : ControllerContext.

Local Abbreviation pass := (range_ControllerInitializers controllerContext).

(** An entry lets the pass through, or is enabled and fails. *)
Lemma entry_ok_cases (entry : string * InitFunc) :
  entry_ok controllerContext entry
  \/ (IsControllerEnabled controllerContext (fst entry) = true
      /\ exists started e, snd entry controllerContext = (started, Some e)).
Proof.
  unfold entry_ok.
  destruct (IsControllerEnabled controllerContext (fst entry)); [|now left; left].
  destruct (snd entry controllerContext) as [started [e|]]; cbn.
  - right. split; [reflexivity|]. now exists started, e.
  - left. now right.
Qed.

Lemma entry_ok_not_failing (entry : string * InitFunc) (started : bool) (e : error) :
  entry_ok controllerContext entry ->
  IsControllerEnabled controllerContext (fst entry) = true ->
  snd entry controllerContext = (started, Some e) ->
  False.
Proof.
  intros [Hd|Hn] He Hf; [congruence|]. rewrite Hf in Hn. discriminate Hn.
Qed.

(** A registry lets the pass through, or has a first entry that fails. *)
Lemma first_failing (entries : list (string * InitFunc)) :
  Forall (entry_ok controllerContext) entries
  \/ exists pre controllerName initFn post started e,
      entries = pre ++ (controllerName, initFn) :: post
      /\ Forall (entry_ok controllerContext) pre
      /\ IsControllerEnabled controllerContext controllerName = true
      /\ initFn controllerContext = (started, Some e).
Proof.
  induction entries as [|[controllerName initFn] entries IH].
  - left. constructor.
  - destruct (entry_ok_cases (controllerName, initFn))
      as [Hok|[He [started [e Hf]]]].
    + destruct IH as [Hall|[pre [n [f [post [started [e [-> [Hpre [He Hf]]]]]]]]]].
      * left. now constructor.
      * right. exists ((controllerName, initFn) :: pre), n, f, post, started, e.
        repeat split; try assumption. now constructor.
    + right. exists [], controllerName, initFn, entries, started, e.
      repeat split; try assumption. constructor.
Qed.

(** A pass that gets through logs as started the enabled entries whose init
    function says so. *)
Lemma range_ok_launched (entries : list (string * InitFunc)) (w : World) :
  Forall (entry_ok controllerContext) entries ->
  exists t,
    pass entries w = (Returned None, extend w t)
    /\ initFn_calls t = enabled_names controllerContext entries
    /\ started_names t = launched_names controllerContext entries
    /\ existsb is_FATAL t = false.
Proof.
  intros Hok. revert w.
  induction Hok as [|[controllerName initFn] entries Hx Hok IH]; intros w.
  - exists []. now rewrite extend_nil.
  - unfold enabled_names, launched_names. cbn [filter fst snd].
    destruct (IsControllerEnabled controllerContext controllerName) eqn:He.
    + destruct Hx as [Hx|Hx]; [cbn in Hx; congruence|]. cbn in Hx.
      destruct (initFn controllerContext) as [started err] eqn:Hi.
      cbn in Hx. subst err. destruct started;
        [rewrite range_started by assumption|rewrite range_skipped by assumption];
        match goal with
        | |- context [pass entries (extend w ?t0)] =>
            destruct (IH (extend w t0)) as [t [Hr [Hc [Hs Hf]]]];
            exists (t0 ++ t); rewrite Hr, extend_extend;
            split; [reflexivity|];
            rewrite initFn_calls_app, started_names_app, existsb_app, Hc, Hs, Hf;
            now repeat split
        end.
    + rewrite range_disabled by assumption.
      match goal with
      | |- context [pass entries (extend w ?t0)] =>
          destruct (IH (extend w t0)) as [t [Hr [Hc [Hs Hf]]]];
          exists (t0 ++ t); rewrite Hr, extend_extend;
          split; [reflexivity|];
          rewrite initFn_calls_app, started_names_app, existsb_app, Hc, Hs, Hf;
          now repeat split
      end.
Qed.

(** The pass gets through exactly the registries without a failing entry. *)
Lemma range_cases (entries : list (string * InitFunc)) (w : World) :
  (Forall (entry_ok controllerContext) entries
   /\ exists t,
       pass entries w = (Returned None, extend w t)
       /\ initFn_calls t = enabled_names controllerContext entries
       /\ started_names t = launched_names controllerContext entries
       /\ existsb is_FATAL t = false)
  \/ (exists pre controllerName initFn post started e t_pre,
         entries = pre ++ (controllerName, initFn) :: post
         /\ Forall (entry_ok controllerContext) pre
         /\ IsControllerEnabled controllerContext controllerName = true
         /\ initFn controllerContext = (started, Some e)
         /\ initFn_calls t_pre = enabled_names controllerContext pre
         /\ pass entries w
            = (Exited,
               extend w (t_pre ++ [E_klog V1_INFO "Starting %q" [controllerName];
                                   E_initFn controllerName;
                                   E_klog FATAL "Error starting %q (%v)"
                                          [controllerName; e]]))).
Proof.
  destruct (first_failing entries)
    as [Hall|[pre [n [f [post [started [e [-> [Hpre [He Hf]]]]]]]]]].
  - left. split; [assumption|]. now apply range_ok_launched.
  - right. destruct (range_ok_launched pre w Hpre) as [t_pre [Hr [Hc _]]].
    exists pre, n, f, post, started, e, t_pre.
    repeat split; try assumption.
    rewrite range_app, Hr, (range_fatal controllerContext _ _ _ started e)
      by assumption.
    now rewrite extend_extend.
Qed.

End StartupCases.

(** * More on the startup driver *)

Lemma startControllers_cases (env : Collaborators)
      (controllerContext : ControllerContext) (w : World) :
  (Forall (entry_ok controllerContext) (ControllerInitializers env)
   /\ exists t,
       startControllers env controllerContext w
       = (Returned None, extend w (t ++ [E_klog INFO "Started Origin Controllers" []]))
       /\ initFn_calls t = enabled_names controllerContext (ControllerInitializers env)
       /\ started_names t = launched_names controllerContext (ControllerInitializers env)
       /\ existsb is_FATAL t = false)
  \/ (~ Forall (entry_ok controllerContext) (ControllerInitializers env)
      /\ exists t rest,
          startControllers env controllerContext w = (Exited, extend w t)
          /\ enabled_names controllerContext (ControllerInitializers env)
             = initFn_calls t ++ rest).
Proof.
  rewrite startControllers_unfold.
  destruct (range_cases controllerContext (ControllerInitializers env) w)
    as [[Hall [t [-> [Hc [Hs Hf]]]]]
       |[pre [n [f [post [started [e [t_pre [Hreg [Hpre [He [Hi [Hc ->]]]]]]]]]]]]].
  - left. split; [assumption|]. exists t. rewrite extend_extend. now repeat split.
  - right. split.
    + intros Hall. rewrite Hreg in Hall. apply Forall_app in Hall as [_ Hall].
      inversion Hall as [|x l Hx _]; subst.
      exact (entry_ok_not_failing controllerContext (n, f) started e Hx He Hi).
    + eexists _, (enabled_names controllerContext post). split; [reflexivity|].
      rewrite Hreg, enabled_names_app, initFn_calls_app, Hc.
      unfold enabled_names at 2. cbn [filter fst map]. rewrite He.
      cbn. now rewrite <- app_assoc.
Qed.

(** X7.  [startControllers] never hands an error to its caller: it returns
    nil or the process exits inside it (the [return err] after [klog.Fatalf]
    is never reached).  It issues no probe and no review, and leaves only
    init calls and log lines. *)
Theorem startControllers_never_returns_error
        (env : Collaborators) (controllerContext : ControllerContext) (w : World) :
  (fst (startControllers env controllerContext w) = Returned None
   \/ fst (startControllers env controllerContext w) = Exited)
  /\ exists t,
      snd (startControllers env controllerContext w) = extend w t
      /\ forallb startup_event t = true
      /\ existsb is_StartInformers t = false.
Proof.
  destruct (startControllers_any env controllerContext w) as [t [Hw [Hs Ho]]].
  split.
  - destruct Ho as [Ho|[Ho _]]; auto.
  - exists t. repeat split; try assumption. now apply startup_phase_no_informers.
Qed.

(** X8.  [startControllers] returns nil exactly when every entry of the
    registry is disabled or has an init function that reports no error;
    otherwise the process exits. *)
Theorem startControllers_nil_iff
        (env : Collaborators) (controllerContext : ControllerContext) (w : World) :
  (fst (startControllers env controllerContext w) = Returned None
   <-> Forall (entry_ok controllerContext) (ControllerInitializers env))
  /\ (fst (startControllers env controllerContext w) = Exited
      <-> ~ Forall (entry_ok controllerContext) (ControllerInitializers env)).
Proof.
  destruct (startControllers_cases env controllerContext w)
    as [[Hall [t [-> _]]]|[Hnot [t [rest [-> _]]]]]; cbn [fst]; repeat split;
    intros; try assumption; try reflexivity; try discriminate; contradiction.
Qed.

(** X9.  When every entry is disabled or starts without error, the pass
    invokes the init function of each enabled entry exactly once, in registry
    order, logs as started exactly those that returned [true], writes no fatal
    line, and ends with the "Started Origin Controllers" line. *)
Theorem startControllers_success
        (env : Collaborators) (controllerContext : ControllerContext) (w : World) :
  Forall (entry_ok controllerContext) (ControllerInitializers env) ->
  exists t,
    startControllers env controllerContext w
    = (Returned None, extend w (t ++ [E_klog INFO "Started Origin Controllers" []]))
    /\ initFn_calls t = enabled_names controllerContext (ControllerInitializers env)
    /\ started_names t = launched_names controllerContext (ControllerInitializers env)
    /\ existsb is_FATAL t = false.
Proof.
  intros Hall.
  destruct (startControllers_cases env controllerContext w)
    as [[_ H]|[Hnot _]]; [exact H|contradiction].
Qed.

(** X11.  Whatever the registry and however the pass ends, the init
    functions invoked are an initial stretch of the enabled entries in
    registry order: a disabled controller is never invoked, and none is
    invoked twice or out of turn. *)
Theorem startControllers_invokes_enabled_prefix
        (env : Collaborators) (controllerContext : ControllerContext) (w : World) :
  exists t rest,
    snd (startControllers env controllerContext w) = extend w t
    /\ enabled_names controllerContext (ControllerInitializers env)
       = initFn_calls t ++ rest
    /\ forall controllerName,
        In controllerName (initFn_calls t) ->
        IsControllerEnabled controllerContext controllerName = true.
Proof.
  assert (Hen : forall n,
             In n (enabled_names controllerContext (ControllerInitializers env)) ->
             IsControllerEnabled controllerContext n = true).
  { intros n Hin. unfold enabled_names in Hin.
    apply in_map_iff in Hin as [[n' f] [<- Hin]].
    now apply filter_In in Hin as [_ Hin]. }
  destruct (startControllers_cases env controllerContext w)
    as [[_ [t [-> [Hc _]]]]|[_ [t [rest [-> Hc]]]]]; cbn [snd].
  - exists (t ++ [E_klog INFO "Started Origin Controllers" []]), [].
    rewrite initFn_calls_app. cbn. rewrite !app_nil_r.
    split; [reflexivity|]. split; [now rewrite Hc|].
    intros n Hin. apply Hen. now rewrite <- Hc.
  - exists t, rest. split; [reflexivity|]. split; [assumption|].
    intros n Hin. apply Hen. rewrite Hc. apply in_or_app. now left.
Qed.

(** * More on the entry point and the callback *)

Lemma sar_allowed_not_denied (r : SubjectAccessReview * option error) :
  sar_allowed r -> sar_denied r -> False.
Proof. intros [_ Ha] [_ Hd]. congruence. Qed.

Lemma sar_allowed_not_failed (r : SubjectAccessReview * option error) (e : error) :
  sar_allowed r -> sar_failed e r -> False.
Proof. intros [Hn _] Hf. unfold sar_failed in Hf. congruence. Qed.

(** X12.  [RunClusterPolicyController] checks its four setup steps in order
    (client, controller server when serving information is configured,
    hostname, resource lock).  It returns the error of the first step that
    fails and then never spawns the election loop; it returns nil exactly
    when all succeed, and then spawns the loop once, as its last action, with
    the hostname as lock identity and the three lease durations of the
    configuration.  In no case does it probe, review or start a controller
    itself. *)
Theorem RunClusterPolicyController_cases
        (env : Collaborators) (config : OpenShiftControllerManagerConfig) (w : World) :
  exists t,
    snd (RunClusterPolicyController env config w) = extend w t
    /\ forallb (fun e => setup_event e || is_go_RunOrDie e) t = true
    /\ match fst (RunClusterPolicyController env config w) with
       | None =>
           NewForConfig env = None
           /\ (cfgServingInfo config = None \/ RunControllerServer env = None)
           /\ snd (Hostname env) = None
           /\ resourcelock_New env = None
           /\ exists t0,
               t = t0 ++ [E_go_RunOrDie
                            {| LockIdentity := fst (Hostname env);
                               LeaseDuration := cfgLeaseDuration (cfgLeaderElection config);
                               RenewDeadline := cfgRenewDeadline (cfgLeaderElection config);
                               RetryPeriod := cfgRetryPeriod (cfgLeaderElection config) |}]
               /\ existsb is_go_RunOrDie t0 = false
       | Some e =>
           existsb is_go_RunOrDie t = false
           /\ (NewForConfig env = Some e
               \/ (NewForConfig env = None
                   /\ cfgServingInfo config <> None
                   /\ RunControllerServer env = Some e)
               \/ (NewForConfig env = None
                   /\ (cfgServingInfo config = None \/ RunControllerServer env = None)
                   /\ snd (Hostname env) = Some e)
               \/ (NewForConfig env = None
                   /\ (cfgServingInfo config = None \/ RunControllerServer env = None)
                   /\ snd (Hostname env) = None
                   /\ resourcelock_New env = Some e))
       end.
Proof.
  unfold RunClusterPolicyController.
  destruct (NewForConfig env) as [e|].
  { exists [E_InitLogrusFromKlog]. cbn. auto. }
  destruct (cfgServingInfo config) as [servingInfo|].
  - destruct (RunControllerServer env) as [e|].
    { eexists [_; _; _]. unfold emit, extend. cbn [fst snd healthz_calls sar_calls trace].
      rewrite <- !app_assoc. split; [reflexivity|]. split; [reflexivity|].
      split; [reflexivity|]. right. left. repeat split. discriminate. }
    destruct (Hostname env) as [id [e|]].
    { eexists [_; _; _; _]. unfold emit, extend. cbn [fst snd healthz_calls sar_calls trace].
      rewrite <- !app_assoc. split; [reflexivity|]. split; [reflexivity|].
      split; [reflexivity|]. right. right. left. auto. }
    destruct (resourcelock_New env) as [e|].
    { eexists [_; _; _; _]. unfold emit, extend. cbn [fst snd healthz_calls sar_calls trace].
      rewrite <- !app_assoc. split; [reflexivity|]. split; [reflexivity|].
      split; [reflexivity|]. right. right. right. auto. }
    eexists [_; _; _; _; _]. unfold emit, extend. cbn [fst snd healthz_calls sar_calls trace].
    rewrite <- !app_assoc. split; [reflexivity|]. split; [reflexivity|].
    repeat split; auto. now eexists [_; _; _; _].
  - destruct (Hostname env) as [id [e|]].
    { eexists [_; _]. unfold emit, extend. cbn [fst snd healthz_calls sar_calls trace].
      rewrite <- !app_assoc. split; [reflexivity|]. split; [reflexivity|].
      split; [reflexivity|]. right. right. left. auto. }
    destruct (resourcelock_New env) as [e|].
    { eexists [_; _]. unfold emit, extend. cbn [fst snd healthz_calls sar_calls trace].
      rewrite <- !app_assoc. split; [reflexivity|]. split; [reflexivity|].
      split; [reflexivity|]. right. right. right. auto. }
    eexists [_; _; _]. unfold emit, extend. cbn [fst snd healthz_calls sar_calls trace].
    rewrite <- !app_assoc. split; [reflexivity|]. split; [reflexivity|].
    repeat split; auto. now eexists [_; _].
Qed.

(** X13.  Without serving information the controller server is not started
    at all: [RunControllerServer] is never called, and what it would have
    returned, error or not, changes nothing of the run. *)
Theorem RunClusterPolicyController_without_serving_info
        (env : Collaborators) (config : OpenShiftControllerManagerConfig)
        (w : World) (r : option error) :
  cfgServingInfo config = None ->
  RunClusterPolicyController (with_RunControllerServer r env) config w
  = RunClusterPolicyController env config w
  /\ exists t,
      snd (RunClusterPolicyController env config w) = extend w t
      /\ existsb is_RunControllerServer t = false.
Proof.
  intros Hnone. unfold RunClusterPolicyController, with_RunControllerServer.
  cbn [NewForConfig RunControllerServer Hostname resourcelock_New version_String].
  rewrite Hnone. split; [reflexivity|].
  destruct (NewForConfig env) as [e|].
  { now exists [E_InitLogrusFromKlog]. }
  destruct (Hostname env) as [id [e|]].
  { eexists [_; _]. unfold emit, extend. cbn [fst snd healthz_calls sar_calls trace].
    rewrite <- !app_assoc. split; reflexivity. }
  destruct (resourcelock_New env) as [e|].
  { eexists [_; _]. unfold emit, extend. cbn [fst snd healthz_calls sar_calls trace].
    rewrite <- !app_assoc. split; reflexivity. }
  eexists [_; _; _]. unfold emit, extend. cbn [fst snd healthz_calls sar_calls trace].
  rewrite <- !app_assoc. split; reflexivity.
Qed.

(** X14.  One run of the leadership callback issues at least one and at most
    302 health probes and at most 122 access reviews, however it ends. *)
Theorem originControllerManager_budget (env : Collaborators) (w : World) :
  healthz_calls w < healthz_calls (snd (originControllerManager env w))
  /\ healthz_calls (snd (originControllerManager env w)) <= healthz_calls w + 302
  /\ sar_calls w <= sar_calls (snd (originControllerManager env w))
  /\ sar_calls (snd (originControllerManager env w)) <= sar_calls w + 122.
Proof.
  rewrite originControllerManager_unfold.
  pose proof (WaitForHealthyAPIServer_frame env w) as [H1 [H2 H3]].
  pose proof (health_attempts_bounds env w) as HbH.
  destruct (WaitForHealthyAPIServer env w) as [[e|] w1]; cbn [fst snd] in *.
  { cbn. lia. }
  destruct (WaitForAuthorizationUpdate_frame env w1) as [t [Hw [Hb _]]].
  pose proof (auth_attempts_bounds env w1) as HbA.
  destruct (WaitForAuthorizationUpdate env w1) as [[e|] w2]; cbn [fst snd] in *;
    subst w2.
  { cbn. lia. }
  destruct (NewControllerContext env) as [controllerContext [e|]].
  { cbn. lia. }
  destruct (startControllers_any env controllerContext
              (extend {| healthz_calls := healthz_calls w1;
                         sar_calls := List.length (reviews t) + sar_calls w1;
                         trace := trace w1 ++ t |} [E_NewControllerContext]))
    as [tC [EC _]].
  destruct (startControllers env controllerContext _) as [[[e|]|] w3];
    cbn [fst snd] in *; subst w3; cbn; lia.
Qed.

(** X15.  The leadership callback returns normally (and only then starts the
    informers) exactly when: one of the probes the health wait gets to make
    (301 or 302) is answered with status 200; the access reviews are denied
    up to one the authorization wait gets to make (of 121 or 122), which is
    allowed; the controller context is built without error; and every
    registry entry is disabled or has an init function that reports no
    error.  In every other case the process exits. *)
Theorem originControllerManager_returns_iff (env : Collaborators) (w : World) :
  (fst (originControllerManager env w) = Returned tt
   <-> (exists K,
           K < health_attempts env w
           /\ statusCode (healthz env (K + healthz_calls w)) = http.StatusOK)
       /\ (exists K,
              K < auth_attempts env w
              /\ (forall i, i < K -> sar_denied (sar env (i + sar_calls w)))
              /\ sar_allowed (sar env (K + sar_calls w)))
       /\ snd (NewControllerContext env) = None
       /\ Forall (entry_ok (fst (NewControllerContext env)))
                 (ControllerInitializers env))
  /\ (fst (originControllerManager env w) = Returned tt
      \/ fst (originControllerManager env w) = Exited)
  /\ health_attempts env w = 301 + Nat.b2n (healthz_last_tick env (healthz_calls w))
  /\ auth_attempts env w = 121 + Nat.b2n (sar_last_tick env (sar_calls w)).
Proof.
  split; [|split; [|split; reflexivity]].
  all: rewrite originControllerManager_unfold.
  all: destruct (WaitForHealthyAPIServer_ends env w)
    as [[KH [HKH [_ [HokH ->]]]]|[HallH ->]].
  all: try (now right).
  2:{ split; [discriminate|].
      intros [[K [HK Hok]] _]. now apply HallH in Hok. }
  all: assert (HH : exists K, K < health_attempts env w
                 /\ statusCode (healthz env (K + healthz_calls w)) = http.StatusOK)
    by now exists KH.
  all: assert (Hsame : auth_attempts env (answered_healthz KH w) = auth_attempts env w)
    by reflexivity.
  all: destruct (WaitForAuthorizationUpdate_ends env (answered_healthz KH w))
    as [[KA [HKA [HdA [HaA ->]]]]
       |[[KA [e [HKA [HdA [HfA ->]]]]]|[HallA ->]]];
    rewrite Hsame in *; cbn [answered_healthz sar_calls] in *.
  all: try (now right).
  - assert (HA : exists K, K < auth_attempts env w
                   /\ (forall i, i < K -> sar_denied (sar env (i + sar_calls w)))
                   /\ sar_allowed (sar env (K + sar_calls w)))
      by now exists KA.
    destruct (NewControllerContext env) as [controllerContext [e|]]; cbn [fst snd].
    { split; [discriminate|]. intros [_ [_ [Hc _]]]. discriminate Hc. }
    match goal with
    | |- context [startControllers env controllerContext ?w0] =>
        destruct (startControllers_cases env controllerContext w0)
          as [[Hall [t [-> _]]]|[Hnot [t [rest [-> _]]]]]
    end; cbn [fst].
    + split; [intros _; now repeat split|reflexivity].
    + split; [discriminate|].
      intros [_ [_ [_ Hall]]]. contradiction.
  - split; [discriminate|].
    intros [_ [[K [HK [Hd Ha]]] _]]. exfalso.
    destruct (Nat.lt_trichotomy K KA) as [Hlt|[->|Hgt]].
    + exact (sar_allowed_not_denied _ Ha (HdA K Hlt)).
    + exact (sar_allowed_not_failed _ e Ha HfA).
    + pose proof (Hd KA Hgt) as [Hn _]. unfold sar_failed in HfA. congruence.
  - split; [discriminate|].
    intros [_ [[K [HK [Hd Ha]]] _]]. exfalso.
    exact (sar_allowed_not_denied _ Ha (HallA K HK)).
  - destruct (NewControllerContext env) as [controllerContext [e|]]; cbn [fst snd];
      [now right|].
    match goal with
    | |- context [startControllers env controllerContext ?w0] =>
        destruct (startControllers_cases env controllerContext w0)
          as [[Hall [t [-> _]]]|[Hnot [t [rest [-> _]]]]]
    end; cbn [fst]; auto.
Qed.

(** X16.  When the leadership callback returns normally, for any registry:
    the init functions it invoked are exactly the enabled entries, each once
    and in registry order, and [StartInformers] happened once, as the last
    event, after all of them. *)
Theorem originControllerManager_success_trace (env : Collaborators) (w : World) :
  fst (originControllerManager env w) = Returned tt ->
  exists t,
    trace (snd (originControllerManager env w)) = trace w ++ t ++ [E_StartInformers]
    /\ initFn_calls t
       = enabled_names (fst (NewControllerContext env)) (ControllerInitializers env)
    /\ existsb is_StartInformers t = false.
Proof.
  rewrite originControllerManager_unfold.
  pose proof (WaitForHealthyAPIServer_leaves env w) as [tH [EH FH]].
  destruct (WaitForHealthyAPIServer env w) as [[e|] w1]; cbn [fst snd] in *;
    [discriminate|].
  pose proof (WaitForAuthorizationUpdate_leaves env w1) as [tA [EA FA]].
  destruct (WaitForAuthorizationUpdate env w1) as [[e|] w2]; cbn [fst snd] in *;
    [discriminate|].
  destruct (NewControllerContext env) as [controllerContext [e|]]; cbn [fst snd];
    [discriminate|].
  destruct (startControllers_any env controllerContext (extend w2 [E_NewControllerContext]))
    as [tC [EC [FC _]]].
  destruct (startControllers_cases env controllerContext (extend w2 [E_NewControllerContext]))
    as [[Hall [t [Hrun [Hc _]]]]|[_ [t [rest [Hrun _]]]]];
    rewrite Hrun in *; cbn [fst snd] in *; [|discriminate].
  intros _.
  apply (f_equal trace) in EC. cbn [extend trace] in EC.
  apply app_inv_head in EC. subst tC.
  destruct (health_phase_quiet tH FH) as [HqH HiH].
  destruct (auth_phase_quiet tA FA) as [HqA HiA].
  exists (tH ++ tA ++ [E_NewControllerContext] ++ t
             ++ [E_klog INFO "Started Origin Controllers" []]).
  split; [|split].
  - cbn [extend trace]. rewrite EA, EH. now rewrite <- !app_assoc.
  - rewrite !initFn_calls_app, HiH, HiA, Hc. cbn. now rewrite app_nil_r.
  - rewrite !existsb_app, HqH, HqA, <- existsb_app.
    now rewrite (startup_phase_no_informers _ FC).
Qed.

(** * The further theorems at work on sample collaborators *)

Lemma WaitForAuthorizationUpdate_timeout_witness :
  fst (WaitForAuthorizationUpdate denying_env World0)
  = Some "server missing RBAC policy for system:kube-controller-manager: timed out waiting for the condition"%string
  /\ sar_calls (snd (WaitForAuthorizationUpdate denying_env World0)) = 122.
Proof.
  destruct (WaitForAuthorizationUpdate_timeout denying_env World0) as [-> _].
  - intros i _. split; reflexivity.
  - split; reflexivity.
Defined.

Lemma startControllers_success_witness :
  exists t,
    startControllers three_env sample_context World0
    = (Returned None, extend World0 (t ++ [E_klog INFO "Started Origin Controllers" []]))
    /\ initFn_calls t
       = ["openshift.io/namespace-security-allocation"%string;
          "openshift.io/cluster-quota-reconciliation"%string]
    /\ started_names t = ["openshift.io/namespace-security-allocation"%string].
Proof.
  destruct (startControllers_success three_env sample_context World0)
    as [t [Hrun [Hc [Hs _]]]].
  - constructor; [right; reflexivity|].
    constructor; [left; reflexivity|].
    constructor; [right; reflexivity|constructor].
  - exists t. split; [exact Hrun|]. split; [exact Hc|exact Hs].
Defined.

Lemma RunClusterPolicyController_without_serving_info_witness :
  RunClusterPolicyController
    (with_RunControllerServer (Some "listen tcp 0.0.0.0:10357: bind: address already in use"%string)
                              three_env)
    quiet_config World0
  = RunClusterPolicyController three_env quiet_config World0
  /\ fst (RunClusterPolicyController three_env quiet_config World0) = None.
Proof.
  destruct (RunClusterPolicyController_without_serving_info three_env quiet_config World0
              (Some "listen tcp 0.0.0.0:10357: bind: address already in use"%string))
    as [H _].
  - reflexivity.
  - split; [exact H|reflexivity].
Defined.

Lemma originControllerManager_success_trace_witness :
  exists t,
    trace (snd (originControllerManager three_env World0)) = t ++ [E_StartInformers]
    /\ initFn_calls t
       = ["openshift.io/namespace-security-allocation"%string;
          "openshift.io/cluster-quota-reconciliation"%string].
Proof.
  destruct (originControllerManager_success_trace three_env World0)
    as [t [Ht [Hc _]]].
  - reflexivity.
  - exists t. split; [exact Ht|exact Hc].
Defined.
